(** * Carbon_date: the anomaly-to-date warp scripts, embedded and verified

    The repository is five Python scripts (carbonDate.py, carbonDate3.py,
    carbonDate4.py, warped_clock.py, warped_clock2.py).  Each script is
    embedded below in a module of its own, with the script's constants and
    function names.

    Conventions of the embedding:
    - a Python [float] is an exact rational ([Q]); [==] on floats is [Qeq];
      module [Binary64] has the warped year of the proportional model once
      more in IEEE binary64, for what rounding does to it;
    - a Python [int] is a [Z];
    - a value that may be [None] is an [option];
    - a Python exception is the [Raise] constructor of [Py.outcome];
    - a [datetime] is a point of the time line measured in days ([Q]); the
      time line has no first and no last day, so what is proved of the date
      a call returns is stated for whenever the call returns;
    - the list of records returned by [fetch_global_temperature_data] and
      the clock read by [datetime.now()] are inputs of the functions that
      call them;
    - the fetch functions themselves take the HTTP response and the text
      parsers ([str.isdigit], [int], [float]) as inputs. *)

From Stdlib Require Import ZArith QArith Qround Lqa Lia.
From Stdlib Require Import PrimFloat.
From stdpp Require Import base list strings pretty sorting.

Local Open Scope Z_scope.

(** ** The fragment of Python the scripts use *)

Module Py.

Inductive exn : Type :=
| Exception
| ValueError
| ZeroDivisionError
| TypeError
| IndexError.

Inductive outcome (A : Type) : Type :=
| Return (a : A)
| Raise (e : exn).
Arguments Return {A} a.
Arguments Raise {A} e.

#[global] Instance outcome_ret : MRet outcome := @Return.
#[global] Instance outcome_bind : MBind outcome := λ A B k m,
  match m with
  | Return a => k a
  | Raise e => Raise e
  end.
#[global] Instance outcome_fmap : FMap outcome := λ A B f m,
  match m with
  | Return a => Return (f a)
  | Raise e => Raise e
  end.

(** [len(l)] *)
Definition len {A} (l : list A) : Z := Z.of_nat (length l).

(** [l[i]]: a negative index counts from the end, an index out of range
    raises [IndexError]. *)
Definition index {A} (l : list A) (i : Z) : option nat :=
  let j := if i <? 0 then i + len l else i in
  if (0 <=? j) && (j <? len l) then Some (Z.to_nat j) else None.

Definition getitem {A} (l : list A) (i : Z) : outcome A :=
  match index l i with
  | Some j =>
      match l !! j with
      | Some x => Return x
      | None => Raise IndexError
      end
  | None => Raise IndexError
  end.

(** [l[i] = x] *)
Definition setitem {A} (l : list A) (i : Z) (x : A) : outcome (list A) :=
  match index l i with
  | Some j => Return (<[j := x]> l)
  | None => Raise IndexError
  end.

(** [range(a, b)] and [range(n)] *)
Definition range (a b : Z) : list Z := seqZ a (b - a).
Definition range0 (n : Z) : list Z := range 0 n.

(** [for x in xs: s = body(x, s)], the loop state passed explicitly. *)
Fixpoint for_in {A S} (xs : list A) (body : A → S → outcome S) (s : S)
  : outcome S :=
  match xs with
  | [] => Return s
  | x :: xs' => s' ← body x s; for_in xs' body s'
  end.

(** Arithmetic on values that may be [None]: an operand [None] raises
    [TypeError], a zero divisor raises [ZeroDivisionError]. *)
Definition truediv (x y : Q) : outcome Q :=
  if Qeq_bool y 0 then Raise ZeroDivisionError else Return (x / y)%Q.

Definition add (x y : option Q) : outcome Q :=
  match x, y with
  | Some a, Some b => Return (a + b)%Q
  | _, _ => Raise TypeError
  end.

Definition sub (x y : option Q) : outcome Q :=
  match x, y with
  | Some a, Some b => Return (a - b)%Q
  | _, _ => Raise TypeError
  end.

Definition div (x y : option Q) : outcome Q :=
  match x, y with
  | Some a, Some b => truediv a b
  | _, _ => Raise TypeError
  end.

(** [x >= y] *)
Definition ge (x y : option Q) : outcome bool :=
  match x, y with
  | Some a, Some b => Return (Qle_bool b a)
  | _, _ => Raise TypeError
  end.

(** [x is not None] *)
Definition is_not_none {A} (x : option A) : bool :=
  match x with Some _ => true | None => false end.

(** The truth value of [x] in [if x:], for a float or [None]. *)
Definition truthy (x : option Q) : bool :=
  match x with
  | Some a => negb (Qeq_bool a 0)
  | None => false
  end.

(** [f"{n}"] for an int. *)
Definition fstring (n : Z) : string := pretty n.

End Py.

Import Py.

(** ** The fragment of [datetime] the scripts use

    A [datetime] is its position on the time line in days: the integer part
    is the proleptic Gregorian ordinal (0001-01-01 is day 1) and the
    fractional part the time of day.  The calendar fields are read off the
    ordinal as CPython's [_ord2ymd] does.  The time line is dense and
    unbounded: float rounding, the microsecond resolution of [timedelta] and
    the MINYEAR..MAXYEAR range are outside the model. *)

Module Datetime.

Definition datetime : Type := Q.
Definition timedelta : Type := Q.

Definition DAYS_IN_MONTH : list Z :=
  [-1; 31; 28; 31; 30; 31; 30; 31; 31; 30; 31; 30; 31].
Definition DAYS_BEFORE_MONTH : list Z :=
  [-1; 0; 31; 59; 90; 120; 151; 181; 212; 243; 273; 304; 334].

Definition DI400Y : Z := 146097.
Definition DI100Y : Z := 36524.
Definition DI4Y : Z := 1461.

Definition table (t : list Z) (m : Z) : Z := nth (Z.to_nat m) t 0.
Definition b2z (b : bool) : Z := if b then 1 else 0.

Definition is_leap (y : Z) : bool :=
  (y mod 4 =? 0) && (negb (y mod 100 =? 0) || (y mod 400 =? 0)).

Definition days_before_year (y : Z) : Z :=
  let y := y - 1 in y * 365 + y / 4 - y / 100 + y / 400.

Definition days_before_month (y m : Z) : Z :=
  table DAYS_BEFORE_MONTH m + b2z ((2 <? m) && is_leap y).

Definition ymd2ord (y m d : Z) : Z :=
  days_before_year y + days_before_month y m + d.

Definition ord2ymd (n : Z) : Z * Z * Z :=
  let n := n - 1 in
  let n400 := n / DI400Y in
  let n := n mod DI400Y in
  let year := n400 * 400 + 1 in
  let n100 := n / DI100Y in
  let n := n mod DI100Y in
  let n4 := n / DI4Y in
  let n := n mod DI4Y in
  let n1 := n / 365 in
  let n := n mod 365 in
  let year := year + n100 * 100 + n4 * 4 + n1 in
  if (n1 =? 4) || (n100 =? 4) then (year - 1, 12, 31)
  else
    let leapyear := (n1 =? 3) && (negb (n4 =? 24) || (n100 =? 3)) in
    let month := Z.shiftr (n + 50) 5 in
    let preceding :=
      table DAYS_BEFORE_MONTH month + b2z ((2 <? month) && leapyear) in
    if n <? preceding then
      let month := month - 1 in
      let preceding :=
        preceding
        - (table DAYS_IN_MONTH month + b2z ((month =? 2) && leapyear)) in
      (year, month, n - preceding + 1)
    else (year, month, n - preceding + 1).

(** [datetime(y, m, d)], midnight: what [strptime(s, '%Y-%m-%d')] builds. *)
Definition of_ymd (y m d : Z) : datetime := inject_Z (ymd2ord y m d).

(** [d.year] and [d.month] *)
Definition year (d : datetime) : Z := (ord2ymd (Qfloor d)).1.1.
Definition month (d : datetime) : Z := (ord2ymd (Qfloor d)).1.2.

(** [timedelta(days=x)] and [d + delta] *)
Definition days (x : Q) : timedelta := x.
Definition add (d : datetime) (delta : timedelta) : datetime := (d + delta)%Q.

End Datetime.

(** ** The annual series

    [fetch_global_temperature_data] of carbonDate.py, carbonDate3.py,
    warped_clock.py and warped_clock2.py appends
    [{"year": year, "anomaly": anomaly}] only when the anomaly parsed to a
    float, so a record of the annual series always holds a float. *)

Module Series.

Record record : Type := {
  year : Z;
  anomaly : Q
}.

End Series.

(** ** What the fetch functions read

    [fetch_global_temperature_data] calls [requests.get], reads the body of
    the response through [csv.reader] and parses cells with [str.isdigit],
    [int] and [float].  The response (its status code and the rows the
    reader yields, or the exception [requests.get] raises) and the three
    parsers are inputs of the fetch functions.  [float] returns a rational,
    as every float of the embedding; a parser that fails raises. *)

Module Text.

Record builtins : Type := {
  isdigit : string → bool;
  int : string → outcome Z;
  float : string → outcome Q
}.

(** The truth value of a string in [if s:]. *)
Definition truthy (s : string) : bool :=
  match s with
  | EmptyString => false
  | String _ _ => true
  end.

End Text.

Module Requests.

Record response : Type := {
  status_code : Z;
  rows : list (list string)
}.

(** [response.raise_for_status()]: an [HTTPError] for a 4xx or 5xx status.
    Its only caller catches it as an [Exception] and raises a plain one. *)
Definition raise_for_status (r : response) : outcome unit :=
  if (400 <=? status_code r) && (status_code r <? 600)
  then Raise Exception
  else Return ().

End Requests.

(** [try: body / except ValueError: handler] and
    [try: body / except Exception as e: handler]. *)
Module Try.

Definition except_ValueError {A} (body handler : outcome A) : outcome A :=
  match body with
  | Raise ValueError => handler
  | _ => body
  end.

Definition except_Exception {A} (body : outcome A) (handler : exn → outcome A)
  : outcome A :=
  match body with
  | Raise e => handler e
  | _ => body
  end.

End Try.

(** ** carbonDate.py: the local linear projection, unguarded *)

Module CarbonDate.

Definition TARGET_YEAR : Z := 2050.
Definition TARGET_TEMP : Q := 1.5.

(** One iteration of [for row in reader] on the list it appends to. *)
Definition fetch_row (py : Text.builtins) (row : list string)
  (temperature_data : list Series.record) : outcome (list Series.record) :=
  is_data ←
    (if 1 <? len row
     then cell ← getitem row 0; Return (Text.isdigit py cell)
     else Return false);
  if is_data : bool then
    cell ← getitem row 0;
    year ← Text.int py cell;
    anomaly ←
      Try.except_ValueError
        (cell ← getitem row 13; Some <$> Text.float py cell)
        (Return None);
    match anomaly with
    | Some anomaly =>
        Return (temperature_data
                ++ [ {| Series.year := year; Series.anomaly := anomaly |} ])
    | None => Return temperature_data
    end
  else Return temperature_data.

Definition fetch_global_temperature_data (py : Text.builtins)
  (get : outcome Requests.response) : outcome (list Series.record) :=
  response ← get;
  if Requests.status_code response =? 200 then
    for_in (Requests.rows response) (fetch_row py) []
  else Raise Exception.

(** The [for record in temperature_data] loop of [get_current_anomaly],
    left by [return] at the first record of the year. *)
Fixpoint get_current_anomaly_loop (temperature_data : list Series.record)
  (current_year : Z) : outcome Q :=
  match temperature_data with
  | [] => Raise ValueError
  | record :: rest =>
      if Series.year record =? current_year
      then Return (Series.anomaly record)
      else get_current_anomaly_loop rest current_year
  end.

Definition get_current_anomaly
  (fetch_global_temperature_data : outcome (list Series.record))
  (current_year : Z) : outcome Q :=
  temperature_data ← fetch_global_temperature_data;
  get_current_anomaly_loop temperature_data current_year.

Definition calculate_expected_anomaly (current_year : Z) (current_anomaly : Q)
  : outcome Q :=
  let years_to_2050 := TARGET_YEAR - current_year in
  let anomaly_increase := (TARGET_TEMP - current_anomaly)%Q in
  shift_per_year ← truediv anomaly_increase (inject_Z years_to_2050);
  Return (current_anomaly + shift_per_year)%Q.

Definition adjust_date_based_on_anomaly
  (fetch_global_temperature_data : outcome (list Series.record))
  (now : Datetime.datetime) (input_date : option Datetime.datetime)
  : outcome (Datetime.datetime * Q) :=
  let input_date := default now input_date in
  let current_year := Datetime.year input_date in
  current_anomaly ← get_current_anomaly fetch_global_temperature_data current_year;
  expected_anomaly ← calculate_expected_anomaly current_year current_anomaly;
  let anomaly_difference := (current_anomaly - expected_anomaly)%Q in
  let days_shift := (anomaly_difference * 365)%Q in
  let adjusted_date := Datetime.add input_date (Datetime.days days_shift) in
  Return (adjusted_date, anomaly_difference).

End CarbonDate.

(** ** carbonDate3.py: the proportional model from the 2016 baseline *)

Module CarbonDate3.

Definition PARIS_AGREEMENT : Z := 2016.
Definition TARGET_YEAR : Z := 2050.
Definition TARGET_TEMP : Q := 1.5.

(** One iteration of [for row in reader] on the list it appends to. *)
Definition fetch_row (py : Text.builtins) (row : list string)
  (temperature_data : list Series.record) : outcome (list Series.record) :=
  is_data ←
    (if 1 <? len row
     then cell ← getitem row 0; Return (Text.isdigit py cell)
     else Return false);
  if is_data : bool then
    cell ← getitem row 0;
    year ← Text.int py cell;
    anomaly ←
      Try.except_ValueError
        (cell ← getitem row 13; Some <$> Text.float py cell)
        (Return None);
    match anomaly with
    | Some anomaly =>
        Return (temperature_data
                ++ [ {| Series.year := year; Series.anomaly := anomaly |} ])
    | None => Return temperature_data
    end
  else Return temperature_data.

Definition fetch_global_temperature_data (py : Text.builtins)
  (get : outcome Requests.response) : outcome (list Series.record) :=
  response ← get;
  if Requests.status_code response =? 200 then
    for_in (Requests.rows response) (fetch_row py) []
  else Raise Exception.

Fixpoint get_current_anomaly_loop (temperature_data : list Series.record)
  (current_year : Z) : outcome Q :=
  match temperature_data with
  | [] => Raise ValueError
  | record :: rest =>
      if Series.year record =? current_year
      then Return (Series.anomaly record)
      else get_current_anomaly_loop rest current_year
  end.

Definition get_current_anomaly
  (fetch_global_temperature_data : outcome (list Series.record))
  (current_year : Z) : outcome Q :=
  temperature_data ← fetch_global_temperature_data;
  get_current_anomaly_loop temperature_data current_year.

(** The [if current_anomaly >= TARGET_TEMP: ... else: ...] block of
    [adjust_date_based_on_anomaly], which computes [adjusted_year]. *)
Definition adjusted_year (current_anomaly : Q) : outcome Q :=
  if Qle_bool TARGET_TEMP current_anomaly then
    Return (inject_Z TARGET_YEAR)
  else
    proportion ← truediv current_anomaly TARGET_TEMP;
    Return (inject_Z PARIS_AGREEMENT
            + proportion * inject_Z (TARGET_YEAR - PARIS_AGREEMENT))%Q.

Definition adjust_date_based_on_anomaly
  (fetch_global_temperature_data : outcome (list Series.record))
  (now : Datetime.datetime) (input_date : option Datetime.datetime)
  : outcome (Datetime.datetime * Q) :=
  let input_date := default now input_date in
  let current_year := Datetime.year input_date in
  current_anomaly ← get_current_anomaly fetch_global_temperature_data current_year;
  adjusted_year ← adjusted_year current_anomaly;
  let year_offset := (adjusted_year - inject_Z current_year)%Q in
  let days_shift := (year_offset * 365.25)%Q in
  let adjusted_date := Datetime.add input_date (Datetime.days days_shift) in
  Return (adjusted_date, current_anomaly).

End CarbonDate3.

(** ** carbonDate4.py: the monthly series, its gap filler and the
    proportional model from the 1880 baseline *)

Module CarbonDate4.

Definition TARGET_YEAR : Z := 2100.
Definition TARGET_TEMP : Q := 1.5.

(** [fetch_global_temperature_data] appends one record per data row, with
    the twelve monthly columns, [None] where a column did not parse. *)
Record record : Type := {
  year : Z;
  monthly_anomalies : list (option Q)
}.

(** One iteration of [for i in range(1, 13)] on the list of the months, and
    one iteration of [for row in reader] on the list of the records. *)
Definition fetch_month (py : Text.builtins) (row : list string) (i : Z)
  (monthly_anomalies : list (option Q)) : outcome (list (option Q)) :=
  anomaly ←
    Try.except_ValueError
      (cell ← getitem row i; Some <$> Text.float py cell)
      (Return None);
  Return (monthly_anomalies ++ [anomaly]).

Definition fetch_row (py : Text.builtins) (row : list string)
  (temperature_data : list record) : outcome (list record) :=
  is_data ←
    (if 1 <? len row
     then cell ← getitem row 0; Return (Text.isdigit py cell)
     else Return false);
  if is_data : bool then
    cell ← getitem row 0;
    year ← Text.int py cell;
    monthly_anomalies ← for_in (range 1 13) (fetch_month py row) [];
    Return (temperature_data
            ++ [ {| year := year; monthly_anomalies := monthly_anomalies |} ])
  else Return temperature_data.

Definition fetch_global_temperature_data (py : Text.builtins)
  (get : outcome Requests.response) : outcome (list record) :=
  response ← get;
  if Requests.status_code response =? 200 then
    for_in (Requests.rows response) (fetch_row py) []
  else Raise Exception.

Fixpoint get_monthly_anomalies_loop (temperature_data : list record)
  (current_year : Z) : outcome (list (option Q)) :=
  match temperature_data with
  | [] => Raise ValueError
  | record :: rest =>
      if year record =? current_year
      then Return (monthly_anomalies record)
      else get_monthly_anomalies_loop rest current_year
  end.

Definition get_monthly_anomalies
  (fetch_global_temperature_data : outcome (list record))
  (current_year : Z) : outcome (list (option Q)) :=
  temperature_data ← fetch_global_temperature_data;
  get_monthly_anomalies_loop temperature_data current_year.

Definition calculate_monthly_derivatives (anomalies : list (option Q))
  : outcome (list (option Q)) :=
  for_in (range 1 (len anomalies)) (λ i derivatives,
    a_i ← getitem anomalies i;
    derivative ←
      (if is_not_none a_i then
         a_p ← getitem anomalies (i - 1);
         if is_not_none a_p then Some <$> sub a_i a_p else Return None
       else Return None);
    Return (derivatives ++ [derivative])) [].

Definition predict_missing_data (anomalies derivatives : list (option Q))
  : outcome (list (option Q)) :=
  let predicted_anomalies := anomalies in
  for_in (range 1 (len predicted_anomalies)) (λ i predicted_anomalies,
    p_i ← getitem predicted_anomalies i;
    if negb (is_not_none p_i) then
      d ← getitem derivatives (i - 1);
      if is_not_none d then
        p_p ← getitem predicted_anomalies (i - 1);
        v ← add p_p d;
        setitem predicted_anomalies i (Some v)
      else Return predicted_anomalies
    else Return predicted_anomalies) predicted_anomalies.

(** The two calls [adjust_date_based_on_anomaly] makes on the year's
    months: the derivatives, then the fill step. *)
Definition fill_monthly_gaps (monthly_anomalies : list (option Q))
  : outcome (list (option Q) * list (option Q)) :=
  derivatives ← calculate_monthly_derivatives monthly_anomalies;
  predicted_anomalies ← predict_missing_data monthly_anomalies derivatives;
  Return (predicted_anomalies, derivatives).

(** The [if current_anomaly >= TARGET_TEMP: ... else: ...] block of
    [adjust_date_based_on_anomaly]; [current_anomaly] may be [None]. *)
Definition adjusted_year (current_anomaly : option Q) : outcome Q :=
  reached ← ge current_anomaly (Some TARGET_TEMP);
  if reached : bool then
    Return (inject_Z TARGET_YEAR)
  else
    proportion ← div current_anomaly (Some TARGET_TEMP);
    Return (1880 + proportion * inject_Z (TARGET_YEAR - 1880))%Q.

Definition adjust_date_based_on_anomaly
  (fetch_global_temperature_data : outcome (list record))
  (now : Datetime.datetime) (input_date : option Datetime.datetime)
  : outcome (Datetime.datetime * option Q * list (option Q)) :=
  let input_date := default now input_date in
  let current_year := Datetime.year input_date in
  let current_month := Datetime.month input_date - 1 in
  monthly_anomalies ← get_monthly_anomalies fetch_global_temperature_data current_year;
  '(predicted_anomalies, derivatives) ← fill_monthly_gaps monthly_anomalies;
  current_anomaly ← getitem predicted_anomalies current_month;
  adjusted_year ← adjusted_year current_anomaly;
  let year_offset := (adjusted_year - inject_Z current_year)%Q in
  let days_shift := (year_offset * 365.25)%Q in
  let adjusted_date := Datetime.add input_date (Datetime.days days_shift) in
  Return (adjusted_date, current_anomaly, derivatives).

End CarbonDate4.

(** ** warped_clock.py: the rolling series, first version *)

Module WarpedClock.

Definition TARGET_YEAR : Z := 2050.
Definition TARGET_TEMP : Q := 1.5.

(** One iteration of [for row in reader] on the list it appends to. *)
Definition fetch_row (py : Text.builtins) (row : list string)
  (temperature_data : list Series.record) : outcome (list Series.record) :=
  is_data ←
    (if 1 <? len row
     then cell ← getitem row 0; Return (Text.isdigit py cell)
     else Return false);
  if is_data : bool then
    cell ← getitem row 0;
    year ← Text.int py cell;
    anomaly ←
      Try.except_ValueError
        (cell ← getitem row 13; Some <$> Text.float py cell)
        (Return None);
    match anomaly with
    | Some anomaly =>
        Return (temperature_data
                ++ [ {| Series.year := year; Series.anomaly := anomaly |} ])
    | None => Return temperature_data
    end
  else Return temperature_data.

Definition fetch_global_temperature_data (py : Text.builtins)
  (get : outcome Requests.response) : outcome (list Series.record) :=
  response ← get;
  if Requests.status_code response =? 200 then
    for_in (Requests.rows response) (fetch_row py) []
  else Raise Exception.

Fixpoint get_anomaly_for_year (year : Z) (temperature_data : list Series.record)
  : option Q :=
  match temperature_data with
  | [] => None
  | record :: rest =>
      if Series.year record =? year
      then Some (Series.anomaly record)
      else get_anomaly_for_year year rest
  end.

(** [current_anomaly] is whatever [get_anomaly_for_year] returned. *)
Definition calculate_expected_anomaly (current_year : Z)
  (current_anomaly : option Q) : outcome Q :=
  let years_to_2050 := TARGET_YEAR - current_year in
  anomaly_increase ← sub (Some TARGET_TEMP) current_anomaly;
  shift_per_year ← truediv anomaly_increase (inject_Z years_to_2050);
  add current_anomaly (Some shift_per_year).

(** One iteration of the [for i in range(12)] loop of
    [calculate_time_warp_data] on the two lists it appends to. *)
Definition time_warp_iteration (current_year : Z)
  (temperature_data : list Series.record) (i : Z)
  (lists : list string * list Q) : outcome (list string * list Q) :=
  let '(months, warp_rates) := lists in
  let year := current_year - i / 12 in
  let anomaly := get_anomaly_for_year year temperature_data in
  if truthy anomaly then
    expected_anomaly ← calculate_expected_anomaly year anomaly;
    anomaly_difference ← sub anomaly (Some expected_anomaly);
    let warp_rate := (anomaly_difference * 365)%Q in
    Return (months ++ [fstring year], warp_rates ++ [warp_rate])
  else Return (months, warp_rates).

Definition calculate_time_warp_data (now : Datetime.datetime)
  (temperature_data : list Series.record) : outcome (list string * list Q) :=
  let current_year := Datetime.year now in
  '(months, warp_rates) ←
    for_in (range0 12) (time_warp_iteration current_year temperature_data)
      ([], []);
  Return (reverse months, reverse warp_rates).

Definition adjust_date_based_on_anomaly (now : Datetime.datetime)
  (temperature_data : list Series.record) : outcome (Datetime.datetime * Q) :=
  let current_year := Datetime.year now in
  let current_anomaly := get_anomaly_for_year current_year temperature_data in
  expected_anomaly ← calculate_expected_anomaly current_year current_anomaly;
  anomaly_difference ← sub current_anomaly (Some expected_anomaly);
  let days_shift := (anomaly_difference * 365)%Q in
  let adjusted_date := Datetime.add now (Datetime.days days_shift) in
  Return (adjusted_date, anomaly_difference).

End WarpedClock.

(** ** warped_clock2.py: the rolling series, guarded version *)

Module WarpedClock2.

Definition TARGET_YEAR : Z := 2050.
Definition TARGET_TEMP : Q := 1.5.

(** One iteration of [for row in reader] on the list it appends to. *)
Definition fetch_row (py : Text.builtins) (row : list string)
  (temperature_data : list Series.record) : outcome (list Series.record) :=
  is_data ←
    (if 1 <? len row
     then cell ← getitem row 0; Return (Text.isdigit py cell)
     else Return false);
  if is_data : bool then
    cell ← getitem row 0;
    year ← Text.int py cell;
    anomaly ←
      Try.except_ValueError
        (cell ← getitem row 13;
         if Text.truthy cell
         then cell ← getitem row 13; Some <$> Text.float py cell
         else Return None)
        (Return None);
    match anomaly with
    | Some anomaly =>
        Return (temperature_data
                ++ [ {| Series.year := year; Series.anomaly := anomaly |} ])
    | None => Return temperature_data
    end
  else Return temperature_data.

Definition fetch_global_temperature_data (py : Text.builtins)
  (get : outcome Requests.response) : outcome (list Series.record) :=
  Try.except_Exception
    (response ← get;
     _ ← Requests.raise_for_status response;
     temperature_data ← for_in (Requests.rows response) (fetch_row py) [];
     match temperature_data with
     | [] => Raise ValueError
     | _ :: _ => Return temperature_data
     end)
    (λ e, Raise Exception).

Fixpoint get_anomaly_for_year (year : Z) (temperature_data : list Series.record)
  : option Q :=
  match temperature_data with
  | [] => None
  | record :: rest =>
      if Series.year record =? year
      then Some (Series.anomaly record)
      else get_anomaly_for_year year rest
  end.

Definition calculate_expected_anomaly (current_year : Z) (current_anomaly : Q)
  : outcome Q :=
  let years_to_2050 := TARGET_YEAR - current_year in
  let anomaly_increase := (TARGET_TEMP - current_anomaly)%Q in
  shift_per_year ←
    (if negb (years_to_2050 =? 0)
     then truediv anomaly_increase (inject_Z years_to_2050)
     else Return 0%Q);
  Return (current_anomaly + shift_per_year)%Q.

Definition adjust_date_based_on_anomaly (now : Datetime.datetime)
  (temperature_data : list Series.record) : outcome (Datetime.datetime * Q) :=
  let current_year := Datetime.year now in
  match get_anomaly_for_year current_year temperature_data with
  | None => Raise ValueError
  | Some current_anomaly =>
      expected_anomaly ← calculate_expected_anomaly current_year current_anomaly;
      let anomaly_difference := (current_anomaly - expected_anomaly)%Q in
      let days_shift := (anomaly_difference * 365)%Q in
      let adjusted_date := Datetime.add now (Datetime.days days_shift) in
      Return (adjusted_date, anomaly_difference)
  end.

(** One iteration of the [for i in range(12)] loop of
    [calculate_time_warp_data] on the two lists it appends to. *)
Definition time_warp_iteration (current_year : Z)
  (temperature_data : list Series.record) (i : Z)
  (lists : list string * list Q) : outcome (list string * list Q) :=
  let '(months, warp_rates) := lists in
  let year := current_year - i in
  match get_anomaly_for_year year temperature_data with
  | Some anomaly =>
      expected_anomaly ← calculate_expected_anomaly year anomaly;
      let anomaly_difference := (anomaly - expected_anomaly)%Q in
      let warp_rate := (anomaly_difference * 365)%Q in
      Return (months ++ [fstring year], warp_rates ++ [warp_rate])
  | None => Return (months, warp_rates)
  end.

Definition calculate_time_warp_data (now : Datetime.datetime)
  (temperature_data : list Series.record) : outcome (list string * list Q) :=
  let current_year := Datetime.year now in
  '(months, warp_rates) ←
    for_in (range0 12) (time_warp_iteration current_year temperature_data)
      ([], []);
  match warp_rates with
  | [] => Raise ValueError
  | _ :: _ => Return (reverse months, reverse warp_rates)
  end.

End WarpedClock2.

(** ** The warped year in binary64

    The [if current_anomaly >= TARGET_TEMP: ... else: ...] block of
    [adjust_date_based_on_anomaly] in carbonDate3.py and carbonDate4.py once
    more, with Python's float as what it is, an IEEE binary64 number
    rounded to nearest.  The years are the ints of the scripts as the floats
    Python converts them to; the int difference [TARGET_YEAR - baseline] is
    exact as a float difference. *)

Module Binary64.

Definition TARGET_TEMP : float := 1.5%float.

Definition CarbonDate3_adjusted_year (current_anomaly : float) : float :=
  if PrimFloat.leb TARGET_TEMP current_anomaly then 2050%float
  else
    let proportion := (current_anomaly / TARGET_TEMP)%float in
    (2016 + proportion * (2050 - 2016))%float.

Definition CarbonDate4_adjusted_year (current_anomaly : float) : float :=
  if PrimFloat.leb TARGET_TEMP current_anomaly then 2100%float
  else
    let proportion := (current_anomaly / TARGET_TEMP)%float in
    (1880 + proportion * (2100 - 1880))%float.

Definition minus_1e_12 : float := (-0x1.19799812dea11p-40)%float.

End Binary64.

(** ** Functions the statements below are phrased with *)

(** What one derivative slot holds: the difference of two present months,
    absent as soon as one of them is. *)
Definition finite_difference (x y : option Q) : option Q :=
  match x, y with
  | Some a, Some b => Some (a - b)%Q
  | _, _ => None
  end.

(** The eleven slots, slot [k] for the step from month [k] to month [k+1]. *)
Definition differences (anomalies : list (option Q)) : list (option Q) :=
  zip_with finite_difference (tail anomalies) anomalies.

(** One iteration of the loop of [predict_missing_data], for the statements
    about a single iteration ([predict_missing_data_iterations]). *)
Definition predict_iteration (derivatives : list (option Q)) (i : Z)
  (predicted_anomalies : list (option Q)) : outcome (list (option Q)) :=
  p_i ← getitem predicted_anomalies i;
  if negb (is_not_none p_i) then
    d ← getitem derivatives (i - 1);
    if is_not_none d then
      p_p ← getitem predicted_anomalies (i - 1);
      v ← add p_p d;
      setitem predicted_anomalies i (Some v)
    else Return predicted_anomalies
  else Return predicted_anomalies.

(** The warped year of the proportional model for a configuration
    [(baseline_year, target_year, target_anomaly)]; carbonDate3.py and
    carbonDate4.py are its instances at their constants (lemmas
    [CarbonDate3_adjusted_year] and [CarbonDate4_adjusted_year]). *)
Definition proportional_year (baseline_year target_year : Z)
  (target_anomaly current_anomaly : Q) : Q :=
  if Qle_bool target_anomaly current_anomaly then inject_Z target_year
  else (inject_Z baseline_year
        + current_anomaly / target_anomaly
          * inject_Z (target_year - baseline_year))%Q.

(** The years of the rolling window, in the order of the offsets
    [0 .. 11], and what it is for a year to have a record in a series. *)
Definition window (current_year : Z) : list Z :=
  (λ offset, current_year - offset) <$> range0 12.

Definition recorded (data : list Series.record) (y : Z) : Prop :=
  y ∈ Series.year <$> data.

#[global] Instance recorded_dec data y : Decision (recorded data y).
Proof. unfold recorded. apply _. Defined.

(** The warp rate warped_clock2.py charts for a year of anomaly [a]. *)
Definition charted (data : list Series.record) (y : Z) (warp_rate : Q) : Prop :=
  ∃ a expected,
    WarpedClock2.get_anomaly_for_year y data = Some a
    ∧ WarpedClock2.calculate_expected_anomaly y a = Return expected
    ∧ warp_rate = ((a - expected) * 365)%Q.

(** ** Sample inputs *)

Definition record_of (y : Z) (a : Q) : Series.record :=
  {| Series.year := y; Series.anomaly := a |}.

(** A series with 2024 recorded twice. *)
Definition sample_series : list Series.record :=
  [record_of 2023 1.17; record_of 2024 1.28; record_of 2024 9.99].

Definition sample_months : list (option Q) :=
  [Some 1.22%Q; Some 1.44%Q; Some 1.39%Q; Some 1.32%Q; Some 1.16%Q; Some 1.24%Q;
   Some 1.20%Q; None; None; None; None; None].

Definition sample_monthly_series : list CarbonDate4.record :=
  [ {| CarbonDate4.year := 2023; CarbonDate4.monthly_anomalies := replicate 12 (Some 1%Q) |};
    {| CarbonDate4.year := 2024; CarbonDate4.monthly_anomalies := sample_months |};
    {| CarbonDate4.year := 2024; CarbonDate4.monthly_anomalies := replicate 12 None |} ].

(** A series whose 2024 anomaly is the target anomaly, one whose 2024
    anomaly is zero, and one that records the target year 2050. *)
Definition series_at_target : list Series.record := [record_of 2024 1.5].
Definition series_with_zero : list Series.record := [record_of 2024 0.0].
Definition series_2050 : list Series.record := [record_of 2050 1.2].

Definition new_year_2024 : Datetime.datetime := Datetime.of_ymd 2024 1 1.
Definition august_2024 : Datetime.datetime := Datetime.of_ymd 2024 8 15.
Definition new_year_2050 : Datetime.datetime := Datetime.of_ymd 2050 1 1.

(** Parsers for the sample rows: decimal ASCII digits for [isdigit] and
    [int], and for [float] the cells the sample rows hold. *)
Definition digit_value (c : Ascii.ascii) : option Z :=
  let n := Z.of_nat (Ascii.nat_of_ascii c) in
  if (48 <=? n) && (n <=? 57) then Some (n - 48) else None.

Fixpoint digits_value (s : string) (acc : Z) : option Z :=
  match s with
  | EmptyString => Some acc
  | String c s' => d ← digit_value c; digits_value s' (10 * acc + d)
  end.

Definition sample_float (s : string) : outcome Q :=
  if String.eqb s ".87" then Return 0.87%Q
  else if String.eqb s "1.17" then Return 1.17%Q
  else if String.eqb s "1.22" then Return 1.22%Q
  else if String.eqb s "1.28" then Return 1.28%Q
  else Raise ValueError.

Definition sample_builtins : Text.builtins := {|
  Text.isdigit := λ s,
    Text.truthy s && bool_decide (is_Some (digits_value s 0));
  Text.int := λ s,
    match digits_value s 0 with
    | Some n => if Text.truthy s then Return n else Raise ValueError
    | None => Raise ValueError
    end;
  Text.float := sample_float
|}.

(** A response in the layout of the GISTEMP table: a title row, a header
    row, and data rows of a year, twelve months and the annual mean, with
    [***] where a value is missing. *)
Definition sample_rows : list (list string) :=
  [ ["Land-Ocean: Global Means"];
    ["Year"; "Jan"; "Feb"; "Mar"; "Apr"; "May"; "Jun";
     "Jul"; "Aug"; "Sep"; "Oct"; "Nov"; "Dec"; "J-D"];
    ["2023"; ".87"; ".87"; "1.22"; "1.17"; ".87"; "1.17";
     "1.17"; "1.17"; "1.28"; "1.28"; "1.28"; "1.28"; "1.17"];
    ["2024"; "1.22"; "1.28"; "1.28"; "1.28"; "1.17"; "1.22";
     "1.22"; "***"; "***"; "***"; "***"; "***"; "***"] ]%string.

Definition sample_response : Requests.response :=
  {| Requests.status_code := 200; Requests.rows := sample_rows |}.

(** The same table with a data row cut short after the month of June. *)
Definition short_rows : list (list string) :=
  [ ["Year"; "Jan"; "Feb"; "Mar"; "Apr"; "May"; "Jun";
     "Jul"; "Aug"; "Sep"; "Oct"; "Nov"; "Dec"; "J-D"];
    ["2024"; "1.22"; "1.28"; "1.28"; "1.28"; "1.17"; "1.22"] ]%string.

(** ** Sanity checks of the embedding on concrete inputs *)

Example ymd_2024 : Datetime.ymd2ord 2024 1 1 = 738886.
Proof. reflexivity. Qed.

Example year_2024 :
  Datetime.year (Datetime.of_ymd 2024 2 29) = 2024
  ∧ Datetime.month (Datetime.of_ymd 2024 2 29) = 2
  ∧ Datetime.ord2ymd 738886 = (2024, 1, 1)
  ∧ Datetime.ord2ymd (Datetime.ymd2ord 2023 12 31) = (2023, 12, 31)
  ∧ Datetime.ord2ymd (Datetime.ymd2ord 2100 3 1) = (2100, 3, 1).
Proof. vm_compute. repeat split. Qed.

Example derivs_ex :
  CarbonDate4.calculate_monthly_derivatives [Some 1.0%Q; None; Some 3%Q; Some 5%Q]
  = Return [None; None; Some (5 - 3)%Q].
Proof. reflexivity. Qed.

(** ** Facts about the Python fragment *)

Section PyFacts.
Context {A : Type}.
Implicit Types (l : list A) (k : nat).

Lemma index_of_nat l k :
  (k < length l)%nat → index l (Z.of_nat k) = Some k.
Proof.
  intros Hk. unfold index, len.
  destruct (Z.ltb_spec (Z.of_nat k) 0) as [Hn|_]; [lia|].
  destruct (Z.leb_spec 0 (Z.of_nat k)) as [_|Hn]; [|lia].
  destruct (Z.ltb_spec (Z.of_nat k) (Z.of_nat (length l))) as [_|Hn]; [|lia].
  simpl. by rewrite Nat2Z.id.
Qed.

Lemma getitem_lookup l k x :
  l !! k = Some x → getitem l (Z.of_nat k) = Return x.
Proof.
  intros Hx. unfold getitem.
  rewrite index_of_nat by (by eapply lookup_lt_Some).
  by rewrite Hx.
Qed.

Lemma range_lookup (a b : Z) k (i : Z) :
  range a b !! k = Some i → i = a + Z.of_nat k ∧ Z.of_nat k < b - a.
Proof. unfold range. intros H. by apply lookup_seqZ in H. Qed.

Lemma range_length (a b : Z) : length (range a b) = Z.to_nat (b - a).
Proof. unfold range. apply length_seqZ. Qed.

(** The loop rule: an invariant indexed by the number of iterations done,
    kept by every iteration, holds when the loop ends, and the loop does
    end without raising. *)
Lemma for_in_invariant {S : Type} (P : nat → S → Prop) (xs : list A)
    (body : A → S → outcome S) (s : S) :
  P 0%nat s →
  (∀ k x s, xs !! k = Some x → P k s →
            ∃ s', body x s = Return s' ∧ P (Datatypes.S k) s') →
  ∃ s', for_in xs body s = Return s' ∧ P (length xs) s'.
Proof.
  revert P s. induction xs as [|x xs IH]; intros P s H0 Hstep; simpl.
  - by exists s.
  - destruct (Hstep 0%nat x s eq_refl H0) as (s1 & -> & H1). simpl.
    apply (IH (λ k, P (Datatypes.S k))); [done|].
    intros k y s2 Hy HP. by apply (Hstep (Datatypes.S k)).
Qed.

End PyFacts.

(** ** The gap filler of carbonDate4.py *)

Lemma differences_length (a : list (option Q)) :
  length (differences a) = (length a - 1)%nat.
Proof.
  unfold differences. rewrite length_zip_with. destruct a; simpl; lia.
Qed.

Lemma differences_lookup (a : list (option Q)) (k : nat) x y :
  a !! Datatypes.S k = Some x → a !! k = Some y →
  differences a !! k = Some (finite_difference x y).
Proof.
  intros Hx Hy. unfold differences.
  rewrite lookup_zip_with, lookup_tail, Hx. simpl. by rewrite Hy.
Qed.

Lemma calculate_monthly_derivatives_differences (a : list (option Q)) :
  CarbonDate4.calculate_monthly_derivatives a = Return (differences a).
Proof.
  unfold CarbonDate4.calculate_monthly_derivatives.
  match goal with
  | |- for_in ?xs ?body ?s = _ =>
      destruct (for_in_invariant (λ k d, d = take k (differences a)) xs body s)
        as (d & -> & Hd); [done| |]
  end.
  - intros k i d Hi ->. apply range_lookup in Hi as [-> Hk].
    unfold len in Hk.
    destruct (lookup_lt_is_Some_2 a (Datatypes.S k)) as [x Hx]; [lia|].
    destruct (lookup_lt_is_Some_2 a k) as [y Hy]; [lia|].
    replace (1 + Z.of_nat k) with (Z.of_nat (Datatypes.S k)) by lia.
    rewrite (getitem_lookup _ _ _ Hx). simpl.
    replace (Z.of_nat (Datatypes.S k) - 1) with (Z.of_nat k) by lia.
    erewrite (take_S_r _ _ _ (differences_lookup a k x y Hx Hy)).
    destruct x as [x|]; simpl; [|by eexists].
    rewrite (getitem_lookup _ _ _ Hy). simpl.
    destruct y as [y|]; simpl; by eexists.
  - f_equal. rewrite Hd, range_length. apply take_ge.
    rewrite differences_length. unfold len. lia.
Qed.

Lemma predict_missing_data_differences (a : list (option Q)) :
  CarbonDate4.predict_missing_data a (differences a) = Return a.
Proof.
  unfold CarbonDate4.predict_missing_data.
  match goal with
  | |- for_in ?xs ?body ?s = _ =>
      destruct (for_in_invariant (λ _ p, p = a) xs body s)
        as (p & -> & Hp); [done| |by f_equal]
  end.
  intros k i p Hi ->. apply range_lookup in Hi as [-> Hk].
  unfold len in Hk.
  destruct (lookup_lt_is_Some_2 a (Datatypes.S k)) as [x Hx]; [lia|].
  destruct (lookup_lt_is_Some_2 a k) as [y Hy]; [lia|].
  replace (1 + Z.of_nat k) with (Z.of_nat (Datatypes.S k)) by lia.
  rewrite (getitem_lookup _ _ _ Hx). simpl.
  destruct x as [x|]; simpl; [by eexists|].
  replace (Z.of_nat (Datatypes.S k) - 1) with (Z.of_nat k) by lia.
  rewrite (getitem_lookup _ _ _ (differences_lookup a k None y Hx Hy)).
  simpl. by eexists.
Qed.

Lemma fill_monthly_gaps_identity (a : list (option Q)) :
  CarbonDate4.fill_monthly_gaps a = Return (a, differences a).
Proof.
  unfold CarbonDate4.fill_monthly_gaps.
  rewrite calculate_monthly_derivatives_differences. simpl.
  by rewrite predict_missing_data_differences.
Qed.

(** C1. Running the gap filler of carbonDate4.py on any monthly sequence [a]
    (the derivatives of [a], then the fill step) returns [a] itself: the
    derivatives are computed without an exception, the fill step fills no
    absent entry and changes no present one, and a second run on the output
    of the first returns the same output.  This holds for every length, the
    twelve months of a year among them. *)
Theorem monthly_gap_filler_is_identity (a : list (option Q)) :
  ∃ derivatives,
    CarbonDate4.calculate_monthly_derivatives a = Return derivatives
    ∧ CarbonDate4.predict_missing_data a derivatives = Return a
    ∧ CarbonDate4.fill_monthly_gaps a = Return (a, derivatives)
    ∧ ('(predicted, _) ← CarbonDate4.fill_monthly_gaps a;
       CarbonDate4.fill_monthly_gaps predicted)
      = CarbonDate4.fill_monthly_gaps a.
Proof.
  exists (differences a). split_and!.
  - apply calculate_monthly_derivatives_differences.
  - apply predict_missing_data_differences.
  - apply fill_monthly_gaps_identity.
  - rewrite fill_monthly_gaps_identity. simpl.
    apply fill_monthly_gaps_identity.
Qed.

(** ** Look-ups in a series *)

(** The first record of a year, when the series has one for it. *)
Lemma first_occurrence {R : Type} (key : R → Z) (data : list R) (y : Z) :
  (∃ r, r ∈ data ∧ key r = y) →
  ∃ pre r post,
    data = pre ++ r :: post ∧ Forall (λ r', key r' ≠ y) pre ∧ key r = y.
Proof.
  induction data as [|r0 data IH]; intros (r & Hin & Hy).
  - by apply elem_of_nil in Hin.
  - destruct (decide (key r0 = y)) as [H0|H0].
    + by exists [], r0, data.
    + apply elem_of_cons in Hin as [->|Hin]; [done|].
      destruct IH as (pre & r1 & post & -> & Hpre & H1); [by exists r|].
      exists (r0 :: pre), r1, post. split_and!; [done| |done].
      by constructor.
Qed.

(** One step of a look-up loop over a record of another year, or of the
    year asked for. *)
Ltac loop_step H :=
  simpl;
  match goal with
  | |- context [ (?a =? ?b) ] =>
      destruct (Z.eqb_spec a b); [first [done | by destruct H] | try done]
  end.

Section AnnualLookup.
Variables (pre post : list Series.record) (r : Series.record) (y : Z).
Hypothesis Hpre : Forall (λ r', Series.year r' ≠ y) pre.
Hypothesis Hr : Series.year r = y.

Lemma CarbonDate_loop_first :
  CarbonDate.get_current_anomaly_loop (pre ++ r :: post) y
  = Return (Series.anomaly r).
Proof.
  induction Hpre as [|r0 l H0 Hl IH]; [by loop_step Hr|]. loop_step H0; auto.
Qed.

Lemma CarbonDate3_loop_first :
  CarbonDate3.get_current_anomaly_loop (pre ++ r :: post) y
  = Return (Series.anomaly r).
Proof.
  induction Hpre as [|r0 l H0 Hl IH]; [by loop_step Hr|]. loop_step H0; auto.
Qed.

Lemma WarpedClock_first :
  WarpedClock.get_anomaly_for_year y (pre ++ r :: post)
  = Some (Series.anomaly r).
Proof.
  induction Hpre as [|r0 l H0 Hl IH]; [by loop_step Hr|]. loop_step H0; auto.
Qed.

Lemma WarpedClock2_first :
  WarpedClock2.get_anomaly_for_year y (pre ++ r :: post)
  = Some (Series.anomaly r).
Proof.
  induction Hpre as [|r0 l H0 Hl IH]; [by loop_step Hr|]. loop_step H0; auto.
Qed.

Lemma CarbonDate_loop_none :
  CarbonDate.get_current_anomaly_loop pre y = Raise ValueError.
Proof. induction Hpre as [|r0 l H0 Hl IH]; [done|]. loop_step H0; auto. Qed.

Lemma CarbonDate3_loop_none :
  CarbonDate3.get_current_anomaly_loop pre y = Raise ValueError.
Proof. induction Hpre as [|r0 l H0 Hl IH]; [done|]. loop_step H0; auto. Qed.

Lemma WarpedClock_none : WarpedClock.get_anomaly_for_year y pre = None.
Proof. induction Hpre as [|r0 l H0 Hl IH]; [done|]. loop_step H0; auto. Qed.

Lemma WarpedClock2_none : WarpedClock2.get_anomaly_for_year y pre = None.
Proof. induction Hpre as [|r0 l H0 Hl IH]; [done|]. loop_step H0; auto. Qed.

End AnnualLookup.

Section MonthlyLookup.
Variables (pre post : list CarbonDate4.record) (r : CarbonDate4.record) (y : Z).
Hypothesis Hpre : Forall (λ r', CarbonDate4.year r' ≠ y) pre.
Hypothesis Hr : CarbonDate4.year r = y.

Lemma CarbonDate4_loop_first :
  CarbonDate4.get_monthly_anomalies_loop (pre ++ r :: post) y
  = Return (CarbonDate4.monthly_anomalies r).
Proof.
  induction Hpre as [|r0 l H0 Hl IH]; [by loop_step Hr|]. loop_step H0; auto.
Qed.

Lemma CarbonDate4_loop_none :
  CarbonDate4.get_monthly_anomalies_loop pre y = Raise ValueError.
Proof. induction Hpre as [|r0 l H0 Hl IH]; [done|]. loop_step H0; auto. Qed.

End MonthlyLookup.

(** C8. The annual look-up returns the stored anomaly of a record of the
    year when the series has one, and signals the absence of the year when
    it has none: [get_current_anomaly] (carbonDate.py, carbonDate3.py) raises
    [ValueError], [get_anomaly_for_year] (warped_clock.py, warped_clock2.py)
    returns [None], which is no float.  No number is substituted. *)
Theorem annual_anomaly_found_or_year_not_found
    (data : list Series.record) (y : Z) :
  (Exists (λ r, Series.year r = y) data →
   ∃ r, r ∈ data ∧ Series.year r = y
        ∧ CarbonDate.get_current_anomaly (Return data) y = Return (Series.anomaly r)
        ∧ CarbonDate3.get_current_anomaly (Return data) y = Return (Series.anomaly r)
        ∧ WarpedClock.get_anomaly_for_year y data = Some (Series.anomaly r)
        ∧ WarpedClock2.get_anomaly_for_year y data = Some (Series.anomaly r))
  ∧ (Forall (λ r, Series.year r ≠ y) data →
     CarbonDate.get_current_anomaly (Return data) y = Raise ValueError
     ∧ CarbonDate3.get_current_anomaly (Return data) y = Raise ValueError
     ∧ WarpedClock.get_anomaly_for_year y data = None
     ∧ WarpedClock2.get_anomaly_for_year y data = None).
Proof.
  split.
  - intros Hex. apply Exists_exists in Hex.
    destruct (first_occurrence Series.year data y Hex)
      as (pre & r & post & -> & Hpre & Hr).
    exists r. split_and!; [|done|..]; simpl.
    + apply elem_of_app. right. apply elem_of_cons. by left.
    + by apply CarbonDate_loop_first.
    + by apply CarbonDate3_loop_first.
    + by apply WarpedClock_first.
    + by apply WarpedClock2_first.
  - intros Hnone. split_and!; simpl.
    + by apply CarbonDate_loop_none.
    + by apply CarbonDate3_loop_none.
    + by apply WarpedClock_none.
    + by apply WarpedClock2_none.
Qed.

Lemma annual_anomaly_found_or_year_not_found_witness :
  (∃ r, r ∈ sample_series ∧ Series.year r = 2023
        ∧ CarbonDate.get_current_anomaly (Return sample_series) 2023
          = Return (Series.anomaly r)
        ∧ CarbonDate3.get_current_anomaly (Return sample_series) 2023
          = Return (Series.anomaly r)
        ∧ WarpedClock.get_anomaly_for_year 2023 sample_series
          = Some (Series.anomaly r)
        ∧ WarpedClock2.get_anomaly_for_year 2023 sample_series
          = Some (Series.anomaly r))
  ∧ (CarbonDate.get_current_anomaly (Return sample_series) 2025 = Raise ValueError
     ∧ CarbonDate3.get_current_anomaly (Return sample_series) 2025 = Raise ValueError
     ∧ WarpedClock.get_anomaly_for_year 2025 sample_series = None
     ∧ WarpedClock2.get_anomaly_for_year 2025 sample_series = None).
Proof.
  split.
  - apply (annual_anomaly_found_or_year_not_found sample_series 2023).
    apply Exists_cons_hd. reflexivity.
  - apply (annual_anomaly_found_or_year_not_found sample_series 2025).
    repeat constructor; simpl; lia.
Defined.

(** C9. When a series holds several records of one year, every look-up of
    that year (annual in carbonDate.py, carbonDate3.py, warped_clock.py and
    warped_clock2.py, monthly in carbonDate4.py) returns the value of the
    first of them in the order of the series, whatever follows it: later
    records of the year are neither rejected nor merged nor preferred. *)
Theorem duplicate_years_first_record_wins
    (pre post : list Series.record) (r : Series.record)
    (mpre mpost : list CarbonDate4.record) (mr : CarbonDate4.record) :
  Forall (λ r', Series.year r' ≠ Series.year r) pre →
  Forall (λ r', CarbonDate4.year r' ≠ CarbonDate4.year mr) mpre →
  CarbonDate.get_current_anomaly (Return (pre ++ r :: post)) (Series.year r)
  = Return (Series.anomaly r)
  ∧ CarbonDate3.get_current_anomaly (Return (pre ++ r :: post)) (Series.year r)
    = Return (Series.anomaly r)
  ∧ WarpedClock.get_anomaly_for_year (Series.year r) (pre ++ r :: post)
    = Some (Series.anomaly r)
  ∧ WarpedClock2.get_anomaly_for_year (Series.year r) (pre ++ r :: post)
    = Some (Series.anomaly r)
  ∧ CarbonDate4.get_monthly_anomalies (Return (mpre ++ mr :: mpost))
      (CarbonDate4.year mr)
    = Return (CarbonDate4.monthly_anomalies mr).
Proof.
  intros Hpre Hmpre. split_and!; simpl.
  - by apply CarbonDate_loop_first.
  - by apply CarbonDate3_loop_first.
  - by apply WarpedClock_first.
  - by apply WarpedClock2_first.
  - by apply CarbonDate4_loop_first.
Qed.

Lemma duplicate_years_first_record_wins_witness :
  CarbonDate.get_current_anomaly (Return sample_series) 2024 = Return 1.28%Q
  ∧ CarbonDate3.get_current_anomaly (Return sample_series) 2024 = Return 1.28%Q
  ∧ WarpedClock.get_anomaly_for_year 2024 sample_series = Some 1.28%Q
  ∧ WarpedClock2.get_anomaly_for_year 2024 sample_series = Some 1.28%Q
  ∧ CarbonDate4.get_monthly_anomalies (Return sample_monthly_series) 2024
    = Return sample_months.
Proof.
  apply (duplicate_years_first_record_wins
           [record_of 2023 1.17] [record_of 2024 9.99] (record_of 2024 1.28)
           [ {| CarbonDate4.year := 2023;
                CarbonDate4.monthly_anomalies := replicate 12 (Some 1%Q) |} ]
           [ {| CarbonDate4.year := 2024;
                CarbonDate4.monthly_anomalies := replicate 12 None |} ]
           {| CarbonDate4.year := 2024;
              CarbonDate4.monthly_anomalies := sample_months |}).
  - repeat constructor; simpl; lia.
  - repeat constructor; simpl; lia.
Defined.

(** ** The proportional model *)

Lemma CarbonDate3_adjusted_year (a : Q) :
  CarbonDate3.adjusted_year a
  = Return (proportional_year CarbonDate3.PARIS_AGREEMENT CarbonDate3.TARGET_YEAR
              CarbonDate3.TARGET_TEMP a).
Proof.
  unfold CarbonDate3.adjusted_year, proportional_year.
  by destruct (Qle_bool _ _).
Qed.

Lemma CarbonDate4_adjusted_year (a : Q) :
  CarbonDate4.adjusted_year (Some a)
  = Return (proportional_year 1880 CarbonDate4.TARGET_YEAR
              CarbonDate4.TARGET_TEMP a).
Proof.
  unfold CarbonDate4.adjusted_year, proportional_year. simpl.
  by destruct (Qle_bool _ _).
Qed.

Section ProportionalModel.
Variables (baseline_year target_year : Z) (target_anomaly : Q).
Hypothesis Hyears : baseline_year ≤ target_year.
Hypothesis Htarget : (0 < target_anomaly)%Q.

Local Abbreviation warped := (proportional_year baseline_year target_year target_anomaly).
Local Open Scope Q_scope.

Local Abbreviation span := (inject_Z (target_year - baseline_year)).

Lemma span_nonneg : 0 <= span.
Proof. change 0 with (inject_Z 0). rewrite <- Zle_Qle. lia. Qed.

Lemma span_years : inject_Z baseline_year + span == inject_Z target_year.
Proof. rewrite <- inject_Z_plus. f_equiv. lia. Qed.

Lemma proportion_le (a1 a2 : Q) :
  a1 <= a2 → a1 / target_anomaly <= a2 / target_anomaly.
Proof.
  intros H. unfold Qdiv. apply Qmult_le_compat_r; [done|].
  apply Qlt_le_weak, Qinv_lt_0_compat, Htarget.
Qed.

Lemma proportion_lt (a1 a2 : Q) :
  a1 < a2 → a1 / target_anomaly < a2 / target_anomaly.
Proof.
  intros H. unfold Qdiv. apply Qmult_lt_compat_r; [|done].
  apply Qinv_lt_0_compat, Htarget.
Qed.

Lemma proportion_target : target_anomaly / target_anomaly == 1.
Proof. field. intros H. rewrite H in Htarget. by apply Qlt_irrefl in Htarget. Qed.

Lemma proportion_zero : 0 / target_anomaly == 0.
Proof. unfold Qdiv. apply Qmult_0_l. Qed.

Lemma warped_clamp (a : Q) :
  target_anomaly <= a → warped a = inject_Z target_year.
Proof.
  intros H. unfold proportional_year.
  apply Qle_bool_iff in H. by rewrite H.
Qed.

Lemma warped_below_target (a : Q) :
  a < target_anomaly →
  warped a = inject_Z baseline_year + a / target_anomaly * span.
Proof.
  intros H. unfold proportional_year.
  destruct (Qle_bool target_anomaly a) eqn:E; [|done].
  apply Qle_bool_iff in E. by apply Qle_not_lt in E.
Qed.

Lemma warped_le_target_year (a : Q) : warped a <= inject_Z target_year.
Proof.
  destruct (Qlt_le_dec a target_anomaly) as [H|H].
  - rewrite (warped_below_target a H).
    pose proof (proportion_lt _ _ H) as Hp. rewrite proportion_target in Hp.
    pose proof span_nonneg. pose proof span_years. nra.
  - rewrite (warped_clamp a H). apply Qle_refl.
Qed.

Lemma warped_monotone (a1 a2 : Q) : a1 <= a2 → warped a1 <= warped a2.
Proof.
  intros H12. destruct (Qlt_le_dec a2 target_anomaly) as [H2|H2].
  - rewrite (warped_below_target a2 H2).
    rewrite (warped_below_target a1) by (by eapply Qle_lt_trans).
    pose proof (proportion_le _ _ H12). pose proof span_nonneg. nra.
  - rewrite (warped_clamp a2 H2). apply warped_le_target_year.
Qed.

Lemma warped_ge_baseline (a : Q) : 0 <= a → inject_Z baseline_year <= warped a.
Proof.
  intros H0. destruct (Qlt_le_dec a target_anomaly) as [H|H].
  - rewrite (warped_below_target a H).
    pose proof (proportion_le _ _ H0) as Hp. rewrite proportion_zero in Hp.
    pose proof span_nonneg. nra.
  - rewrite (warped_clamp a H). rewrite <- Zle_Qle. done.
Qed.



End ProportionalModel.

Lemma CarbonDate3_config :
  CarbonDate3.PARIS_AGREEMENT < CarbonDate3.TARGET_YEAR
  ∧ (0 < CarbonDate3.TARGET_TEMP)%Q.
Proof. by vm_compute. Qed.

Lemma CarbonDate4_config :
  1880 < CarbonDate4.TARGET_YEAR ∧ (0 < CarbonDate4.TARGET_TEMP)%Q.
Proof. by vm_compute. Qed.




(** At [float("-1e-12")] the two sums are still told apart from the
    baseline year in binary64. *)
Lemma proportional_baseline_below_threshold_binary64 :
  PrimFloat.ltb (Binary64.CarbonDate3_adjusted_year Binary64.minus_1e_12) 2016
  = true
  ∧ PrimFloat.ltb (Binary64.CarbonDate4_adjusted_year Binary64.minus_1e_12) 1880
    = true.
Proof. by vm_compute. Qed.

(** C7. The proportional model is monotone in the anomaly: in carbonDate3.py
    and in carbonDate4.py, whose baseline year, target year and (positive)
    target anomaly are constants and whose warped year does not depend on
    the current year, anomalies [a1 <= a2] give warped years [y1 <= y2]. *)
Theorem proportional_baseline_monotone (a1 a2 : Q) :
  (a1 <= a2)%Q →
  ∃ y1 y2 z1 z2 : Q,
    CarbonDate3.adjusted_year a1 = Return y1
    ∧ CarbonDate3.adjusted_year a2 = Return y2
    ∧ (y1 <= y2)%Q
    ∧ CarbonDate4.adjusted_year (Some a1) = Return z1
    ∧ CarbonDate4.adjusted_year (Some a2) = Return z2
    ∧ (z1 <= z2)%Q.
Proof.
  intros H12.
  destruct CarbonDate3_config as [Hy3 Ht3], CarbonDate4_config as [Hy4 Ht4].
  eexists _, _, _, _.
  split; [apply CarbonDate3_adjusted_year|].
  split; [apply CarbonDate3_adjusted_year|].
  split; [apply warped_monotone; [lia|done..]|].
  split; [apply CarbonDate4_adjusted_year|].
  split; [apply CarbonDate4_adjusted_year|].
  apply warped_monotone; [lia|done..].
Qed.

Lemma proportional_baseline_monotone_witness :
  (1.1 <= 1.3)%Q
  ∧ ∃ y1 y2 z1 z2 : Q,
      CarbonDate3.adjusted_year 1.1 = Return y1
      ∧ CarbonDate3.adjusted_year 1.3 = Return y2
      ∧ (y1 <= y2)%Q
      ∧ CarbonDate4.adjusted_year (Some 1.1%Q) = Return z1
      ∧ CarbonDate4.adjusted_year (Some 1.3%Q) = Return z2
      ∧ (z1 <= z2)%Q.
Proof.
  assert (H : (1.1 <= 1.3)%Q) by (by vm_compute).
  split; [exact H|]. apply (proportional_baseline_monotone 1.1 1.3 H).
Defined.

(** ** The local linear projection *)

Lemma inject_Z_nonzero (n : Z) : n ≠ 0 → ¬ (inject_Z n == 0)%Q.
Proof. intros Hn H. apply Hn. by apply (inject_Z_injective n 0). Qed.

Lemma truediv_inject_Z (x : Q) (n : Z) :
  n ≠ 0 → truediv x (inject_Z n) = Return (x / inject_Z n)%Q.
Proof.
  intros Hn. unfold truediv.
  destruct (Qeq_bool (inject_Z n) 0) eqn:E; [|done].
  apply Qeq_bool_iff in E. by apply inject_Z_nonzero in E.
Qed.

Lemma truediv_zero (x y : Q) : (y == 0)%Q → truediv x y = Raise ZeroDivisionError.
Proof. intros H. unfold truediv. apply Qeq_bool_iff in H. by rewrite H. Qed.

(** C2. Local linear projection of carbonDate.py away from the target year,
    in exact arithmetic.  For an input date whose year is not the target
    year and has the anomaly [current_anomaly] in the series, the per-year
    shift, the expected anomaly and the result are all computed, the
    anomaly difference is literally
    [current_anomaly - (current_anomaly + shift_per_year)], and it equals
    [- shift_per_year], that is
    [(current_anomaly - TARGET_TEMP) / (TARGET_YEAR - current_year)].
    Hence a current anomaly equal to the target gives a zero difference and
    the input date itself, and the adjusted date falls after the input date
    exactly when the difference is positive. *)
Theorem local_linear_projection_difference
    (data : list Series.record) (now : Datetime.datetime)
    (input_date : option Datetime.datetime) (current_anomaly : Q) :
  Datetime.year (default now input_date) ≠ CarbonDate.TARGET_YEAR →
  CarbonDate.get_current_anomaly (Return data)
    (Datetime.year (default now input_date)) = Return current_anomaly →
  ∃ (shift_per_year anomaly_difference : Q) (adjusted_date : Datetime.datetime),
    truediv (CarbonDate.TARGET_TEMP - current_anomaly)
      (inject_Z (CarbonDate.TARGET_YEAR - Datetime.year (default now input_date)))
    = Return shift_per_year
    ∧ CarbonDate.calculate_expected_anomaly
        (Datetime.year (default now input_date)) current_anomaly
      = Return (current_anomaly + shift_per_year)%Q
    ∧ CarbonDate.adjust_date_based_on_anomaly (Return data) now input_date
      = Return (adjusted_date, anomaly_difference)
    ∧ anomaly_difference = (current_anomaly - (current_anomaly + shift_per_year))%Q
    ∧ (anomaly_difference == - shift_per_year)%Q
    ∧ (anomaly_difference
       == (current_anomaly - CarbonDate.TARGET_TEMP)
          / inject_Z (CarbonDate.TARGET_YEAR
                      - Datetime.year (default now input_date)))%Q
    ∧ ((current_anomaly == CarbonDate.TARGET_TEMP)%Q →
       (anomaly_difference == 0)%Q
       ∧ (adjusted_date == default now input_date)%Q)
    ∧ ((default now input_date < adjusted_date)%Q ↔ (0 < anomaly_difference)%Q).
Proof.
  intros Hyear Hget.
  set (date := default now input_date) in *.
  set (years := CarbonDate.TARGET_YEAR - Datetime.year date).
  assert (Hyears : years ≠ 0) by (unfold years; lia).
  pose proof (inject_Z_nonzero years Hyears) as Hq.
  set (shift := ((CarbonDate.TARGET_TEMP - current_anomaly) / inject_Z years)%Q).
  exists shift, (current_anomaly - (current_anomaly + shift))%Q,
    (Datetime.add date
       (Datetime.days ((current_anomaly - (current_anomaly + shift)) * 365))).
  assert (Hexp : CarbonDate.calculate_expected_anomaly (Datetime.year date)
                   current_anomaly = Return (current_anomaly + shift)%Q).
  { unfold CarbonDate.calculate_expected_anomaly. fold years.
    by rewrite (truediv_inject_Z _ _ Hyears). }
  split_and!.
  - by apply truediv_inject_Z.
  - exact Hexp.
  - unfold CarbonDate.adjust_date_based_on_anomaly. fold date.
    rewrite Hget. simpl. by rewrite Hexp.
  - done.
  - ring.
  - unfold shift. by field.
  - intros Ha. unfold Datetime.add, Datetime.days.
    assert (shift == 0)%Q as Hs by (unfold shift; rewrite Ha; by field).
    split; rewrite Hs; ring.
  - unfold Datetime.add, Datetime.days. split; intros H; lra.
Qed.

Lemma local_linear_projection_difference_witness :
  (∃ (anomaly_difference : Q) (adjusted_date : Datetime.datetime),
     CarbonDate.adjust_date_based_on_anomaly (Return sample_series)
       august_2024 (Some new_year_2024)
     = Return (adjusted_date, anomaly_difference)
     ∧ (anomaly_difference == (1.28 - 1.5) / 26)%Q)
  ∧ (∃ (anomaly_difference : Q) (adjusted_date : Datetime.datetime),
       CarbonDate.adjust_date_based_on_anomaly (Return series_at_target)
         august_2024 None
       = Return (adjusted_date, anomaly_difference)
       ∧ (anomaly_difference == 0)%Q ∧ (adjusted_date == august_2024)%Q).
Proof.
  split.
  - destruct (local_linear_projection_difference sample_series august_2024
                (Some new_year_2024) 1.28)
      as (s & d & t & _ & _ & E & _ & _ & Hd & _); [by vm_compute|reflexivity|].
    exists d, t. split; [exact E|exact Hd].
  - destruct (local_linear_projection_difference series_at_target august_2024
                None 1.5)
      as (s & d & t & _ & _ & E & _ & _ & _ & H0 & _); [by vm_compute|reflexivity|].
    exists d, t. split; [exact E|]. apply H0. reflexivity.
Defined.

(** ** The rolling series of warped_clock2.py *)

Lemma WarpedClock2_lookup_recorded (data : list Series.record) (y : Z) :
  recorded data y ↔ is_Some (WarpedClock2.get_anomaly_for_year y data).
Proof.
  unfold recorded. induction data as [|r data IH]; simpl.
  - split; [by intros ?%elem_of_nil|by intros [? ?]].
  - rewrite elem_of_cons. destruct (Z.eqb_spec (Series.year r) y) as [E|E].
    + split; [by eexists|by left].
    + rewrite <- IH. split; [intros [->|?]; done|by right].
Qed.

Lemma WarpedClock2_expected_anomaly (y : Z) (a : Q) :
  ∃ expected,
    WarpedClock2.calculate_expected_anomaly y a = Return expected
    ∧ (y = WarpedClock2.TARGET_YEAR → expected = (a + 0)%Q).
Proof.
  unfold WarpedClock2.calculate_expected_anomaly.
  destruct (Z.eqb_spec (WarpedClock2.TARGET_YEAR - y) 0) as [E|E]; simpl.
  - by eexists.
  - rewrite (truediv_inject_Z _ _ E). simpl. eexists. split; [done|lia].
Qed.

Lemma WarpedClock2_loop (cy : Z) (data : list Series.record)
    (offsets : list Z) (months : list string) (rates : list Q) :
  ∃ new_rates,
    for_in offsets (WarpedClock2.time_warp_iteration cy data) (months, rates)
    = Return (months ++ (fstring <$> filter (recorded data)
                                      ((λ o, cy - o) <$> offsets)),
              rates ++ new_rates)
    ∧ Forall2 (charted data)
        (filter (recorded data) ((λ o, cy - o) <$> offsets)) new_rates.
Proof.
  revert months rates. induction offsets as [|o offsets IH]; intros months rates.
  - exists []. simpl. by rewrite !app_nil_r.
  - simpl. destruct (WarpedClock2.get_anomaly_for_year (cy - o) data) as [a|] eqn:E.
    + destruct (WarpedClock2_expected_anomaly (cy - o) a) as (e & He & _).
      rewrite He. simpl.
      destruct (IH (months ++ [fstring (cy - o)]) (rates ++ [((a - e) * 365)%Q]))
        as (new_rates & -> & HF).
      rewrite filter_cons_True
        by (apply WarpedClock2_lookup_recorded; rewrite E; by eexists).
      exists (((a - e) * 365)%Q :: new_rates).
      rewrite fmap_cons, <- !app_assoc. split; [done|].
      constructor; [by exists a, e|done].
    + simpl. destruct (IH months rates) as (new_rates & -> & HF).
      rewrite filter_cons_False
        by (intros [? H]%WarpedClock2_lookup_recorded; congruence).
      by exists new_rates.
Qed.

Lemma window_years (cy : Z) :
  window cy
  = [cy; cy - 1; cy - 2; cy - 3; cy - 4; cy - 5;
     cy - 6; cy - 7; cy - 8; cy - 9; cy - 10; cy - 11].
Proof. unfold window. simpl. repeat f_equal; lia. Qed.

Lemma window_descending (cy : Z) : StronglySorted Z.gt (window cy).
Proof.
  rewrite window_years.
  repeat (constructor; [|repeat constructor; lia]). constructor.
Qed.

Lemma StronglySorted_filter {A : Type} (R : relation A) (P : A → Prop)
    `{!∀ x, Decision (P x)} (l : list A) :
  StronglySorted R l → StronglySorted R (filter P l).
Proof.
  induction 1 as [|x l Hl IH Hx]; [constructor|].
  rewrite filter_cons. destruct (decide (P x)); [|done].
  constructor; [done|].
  apply Forall_forall. intros z [_ Hz]%list_elem_of_filter.
  by eapply Forall_forall in Hx.
Qed.

Lemma StronglySorted_reverse_gt (l : list Z) :
  StronglySorted Z.gt l → StronglySorted Z.lt (reverse l).
Proof.
  induction 1 as [|x l Hl IH Hx]; [constructor|].
  rewrite reverse_cons. apply StronglySorted_app; split_and!.
  - intros y z Hy Hz%list_elem_of_singleton. subst z.
    rewrite elem_of_reverse in Hy.
    rewrite Forall_forall in Hx. specialize (Hx y Hy). lia.
  - done.
  - repeat constructor.
Qed.

Lemma window_NoDup (cy : Z) : NoDup (window cy).
Proof.
  rewrite window_years.
  repeat (apply NoDup_cons_2; [rewrite ?elem_of_cons, elem_of_nil; lia|]).
  apply NoDup_nil_2.
Qed.

Lemma WarpedClock2_time_warp_data (now : Datetime.datetime)
    (data : list Series.record) :
  match filter (recorded data) (window (Datetime.year now)) with
  | [] => WarpedClock2.calculate_time_warp_data now data = Raise ValueError
  | found =>
      ∃ rates,
        WarpedClock2.calculate_time_warp_data now data
        = Return (fstring <$> reverse found, rates)
        ∧ Forall2 (charted data) (reverse found) rates
  end.
Proof.
  unfold WarpedClock2.calculate_time_warp_data.
  destruct (WarpedClock2_loop (Datetime.year now) data (range0 12) [] [])
    as (new_rates & -> & HF).
  change ((λ o, Datetime.year now - o) <$> range0 12)
    with (window (Datetime.year now)) in *.
  simpl. destruct HF as [|y r found new_rates Hy HF]; [done|].
  exists (reverse (r :: new_rates)). rewrite fmap_reverse. split; [done|].
  apply Forall2_reverse. by constructor.
Qed.

Lemma filter_recorded_nil (data : list Series.record) (years : list Z) :
  filter (recorded data) years = [] ↔ Forall (λ y, ¬ recorded data y) years.
Proof.
  rewrite Forall_forall. split.
  - intros E y Hy Hrec.
    assert (y ∈ filter (recorded data) years) as Hin
      by (by apply list_elem_of_filter).
    rewrite E in Hin. by apply elem_of_nil in Hin.
  - intros H. apply elem_of_nil_inv. intros y [Hrec Hy]%list_elem_of_filter.
    by apply (H y).
Qed.

(** X20. The rolling series of warped_clock2.py looks up the years
    [current_year - offset] for the offsets [0 .. 11], once each, and what it
    returns is at most twelve entries long and strictly ascending by year. *)
Theorem WarpedClock2_rolling_series_chronological
    (now : Datetime.datetime) (data : list Series.record)
    (months : list string) (rates : list Q) :
  WarpedClock2.calculate_time_warp_data now data = Return (months, rates) →
  ∃ years,
    years = reverse (filter (recorded data) (window (Datetime.year now)))
    ∧ window (Datetime.year now)
      = (λ offset, Datetime.year now - offset) <$> [0; 1; 2; 3; 4; 5; 6; 7; 8; 9; 10; 11]
    ∧ months = fstring <$> years
    ∧ Forall2 (charted data) years rates
    ∧ (length months ≤ 12)%nat
    ∧ length rates = length months
    ∧ StronglySorted Z.lt years.
Proof.
  intros E. pose proof (WarpedClock2_time_warp_data now data) as H.
  exists (reverse (filter (recorded data) (window (Datetime.year now)))).
  destruct (filter _ _) as [|y found] eqn:Ef; [congruence|].
  destruct H as (rates' & E' & HF). rewrite E in E'. injection E' as -> ->.
  rewrite <- Ef in *. split_and!; try done.
  - rewrite length_fmap, length_reverse.
    etrans; [apply length_filter|]. by rewrite window_years.
  - apply Forall2_length in HF. by rewrite length_fmap.
  - apply StronglySorted_reverse_gt, StronglySorted_filter, window_descending.
Qed.

(** X21. The rolling series of warped_clock2.py skips exactly the window years
    without a record: the years it returns are, each once, the window years
    that have a record, whatever the recorded anomaly, and it raises
    [ValueError] exactly when no window year has a record. *)
Theorem WarpedClock2_skips_exactly_missing_years
    (now : Datetime.datetime) (data : list Series.record) :
  (WarpedClock2.calculate_time_warp_data now data = Raise ValueError
   ↔ Forall (λ y, ¬ recorded data y) (window (Datetime.year now)))
  ∧ (¬ Forall (λ y, ¬ recorded data y) (window (Datetime.year now)) →
     ∃ years rates,
       WarpedClock2.calculate_time_warp_data now data
       = Return (fstring <$> years, rates)
       ∧ Forall2 (charted data) years rates
       ∧ NoDup years
       ∧ ∀ y, y ∈ years ↔ y ∈ window (Datetime.year now) ∧ recorded data y).
Proof.
  pose proof (WarpedClock2_time_warp_data now data) as H.
  pose proof (filter_recorded_nil data (window (Datetime.year now))) as Hnil.
  destruct (filter _ _) as [|y found] eqn:Ef.
  - split; [by rewrite <- Hnil|]. intros Hn. by destruct Hn; apply Hnil.
  - destruct H as (rates & E & HF). split.
    + rewrite E, <- Hnil. split; intros; discriminate.
    + intros _. exists (reverse (y :: found)), rates. split_and!; [done..| |].
      * rewrite reverse_Permutation, <- Ef.
        apply NoDup_filter, window_NoDup.
      * intros z. rewrite elem_of_reverse, <- Ef, list_elem_of_filter. tauto.
Qed.

(** ** The degenerate horizon *)

(** X22. The guarded variant (warped_clock2.py) at the target year: the shift per
    year is taken as zero, so the expected anomaly is the current one plus
    zero; and whenever [adjust_date_based_on_anomaly] returns, the
    difference it returns is zero and the warped date is the date itself. *)
Theorem WarpedClock2_degenerate_horizon_zero_shift
    (now : Datetime.datetime) (data : list Series.record) (a : Q) :
  Datetime.year now = WarpedClock2.TARGET_YEAR →
  WarpedClock2.get_anomaly_for_year (Datetime.year now) data = Some a →
  WarpedClock2.calculate_expected_anomaly (Datetime.year now) a
  = Return (a + 0)%Q
  ∧ ∀ (adjusted_date : Datetime.datetime) (anomaly_difference : Q),
      WarpedClock2.adjust_date_based_on_anomaly now data
      = Return (adjusted_date, anomaly_difference) →
      (anomaly_difference == 0)%Q ∧ (adjusted_date == now)%Q.
Proof.
  intros Hy Ha.
  destruct (WarpedClock2_expected_anomaly (Datetime.year now) a)
    as (e & He & Hzero).
  specialize (Hzero Hy). subst e. split; [exact He|].
  intros adjusted_date anomaly_difference.
  unfold WarpedClock2.adjust_date_based_on_anomaly. rewrite Ha, He. simpl.
  intros [= <- <-]. unfold Datetime.add, Datetime.days. split; ring.
Qed.

Lemma WarpedClock2_degenerate_horizon_zero_shift_witness :
  WarpedClock2.calculate_expected_anomaly (Datetime.year new_year_2050) 1.2
  = Return (1.2 + 0)%Q
  ∧ ∃ (adjusted_date : Datetime.datetime) (anomaly_difference : Q),
      WarpedClock2.adjust_date_based_on_anomaly new_year_2050 series_2050
      = Return (adjusted_date, anomaly_difference)
      ∧ (anomaly_difference == 0)%Q
      ∧ (adjusted_date == new_year_2050)%Q.
Proof.
  destruct (WarpedClock2_degenerate_horizon_zero_shift new_year_2050
              series_2050 1.2) as [He Hadjust]; [reflexivity..|].
  split; [exact He|]. eexists _, _. split; [reflexivity|].
  by apply Hadjust.
Defined.

(** X23. The unguarded variant (carbonDate.py) at the target year, whatever
    the series and the anomaly found: when the year of the input date is
    2050 and the series has it, dividing by [TARGET_YEAR - current_year]
    raises [ZeroDivisionError]. *)
Lemma CarbonDate_raises_at_target_year
    (data : list Series.record) (now : Datetime.datetime)
    (input_date : option Datetime.datetime) (a : Q) :
  Datetime.year (default now input_date) = CarbonDate.TARGET_YEAR →
  CarbonDate.get_current_anomaly (Return data)
    (Datetime.year (default now input_date)) = Return a →
  CarbonDate.adjust_date_based_on_anomaly (Return data) now input_date
  = Raise ZeroDivisionError.
Proof.
  intros Hy Hget. unfold CarbonDate.adjust_date_based_on_anomaly.
  rewrite Hget. simpl. unfold CarbonDate.calculate_expected_anomaly.
  rewrite Hy, truediv_zero; [done|]. by rewrite Z.sub_diag.
Qed.

(** C5, at the failing input.  carbonDate.py divides by
    [TARGET_YEAR - current_year] without a guard: at the target year its
    [calculate_expected_anomaly] raises [ZeroDivisionError] for every
    anomaly, and so does [adjust_date_based_on_anomaly] for the date
    2050-01-01 and a series that records 2050; warped_clock.py does the same.
    The guarded warped_clock2.py returns the date itself there. *)
Theorem CarbonDate_divides_by_zero_at_target_year :
  (∀ a : Q,
     CarbonDate.calculate_expected_anomaly CarbonDate.TARGET_YEAR a
     = Raise ZeroDivisionError)
  ∧ Datetime.year new_year_2050 = CarbonDate.TARGET_YEAR
  ∧ CarbonDate.get_current_anomaly (Return series_2050)
      (Datetime.year new_year_2050) = Return 1.2%Q
  ∧ CarbonDate.adjust_date_based_on_anomaly (Return series_2050)
      august_2024 (Some new_year_2050) = Raise ZeroDivisionError
  ∧ WarpedClock.adjust_date_based_on_anomaly new_year_2050 series_2050
    = Raise ZeroDivisionError
  ∧ ∃ anomaly_difference,
      WarpedClock2.adjust_date_based_on_anomaly new_year_2050 series_2050
      = Return ((new_year_2050 + anomaly_difference * 365)%Q, anomaly_difference)
      ∧ (anomaly_difference == 0)%Q.
Proof.
  split_and!; [|reflexivity..|].
  - intros a. unfold CarbonDate.calculate_expected_anomaly.
    by rewrite truediv_zero.
  - eexists. split; [reflexivity|]. by vm_compute.
Qed.

(** ** The rolling series of warped_clock.py *)

(** C4, at the failing input.  warped_clock.py computes the window year as
    [current_year - i // 12], and [i // 12] is 0 for every [i] of
    [range(12)]: the current year is looked up twelve times and no earlier
    year is.  For a clock in 2024 and a series that records 2023 and 2024 it
    returns twelve entries labelled 2024, where warped_clock2.py returns
    2023 and 2024. *)
Theorem WarpedClock_window_never_leaves_current_year :
  (∀ current_year : Z,
     (λ i, current_year - i / 12) <$> range0 12 = replicate 12 current_year)
  ∧ Datetime.year august_2024 = 2024
  ∧ WarpedClock.get_anomaly_for_year 2023 sample_series = Some 1.17%Q
  ∧ fst <$> WarpedClock.calculate_time_warp_data august_2024 sample_series
    = Return (replicate 12 "2024"%string)
  ∧ fst <$> WarpedClock2.calculate_time_warp_data august_2024 sample_series
    = Return ["2023"%string; "2024"%string].
Proof.
  split_and!; try (by vm_compute).
  intros cy.
  assert (range0 12 = [0; 1; 2; 3; 4; 5; 6; 7; 8; 9; 10; 11]) as -> by reflexivity.
  simpl. repeat f_equal; rewrite Z.div_small by lia; lia.
Qed.

(** Whatever the series, when the anomaly of the current year is missing
    or zero warped_clock.py returns two empty lists, and no exception. *)
Lemma WarpedClock_empty_when_current_year_untrue
    (now : Datetime.datetime) (data : list Series.record) :
  truthy (WarpedClock.get_anomaly_for_year (Datetime.year now) data) = false →
  WarpedClock.calculate_time_warp_data now data = Return ([], []).
Proof.
  intros Hfalse. unfold WarpedClock.calculate_time_warp_data.
  match goal with
  | |- context [ for_in ?xs ?body ?s ] =>
      destruct (for_in_invariant (λ _ st, st = ([], [])) xs body s)
        as (st & -> & ->); [done| |done]
  end.
  intros k i st Hi ->. apply range_lookup in Hi as [-> Hk].
  unfold WarpedClock.time_warp_iteration.
  rewrite Z.div_small, Z.sub_0_r by lia. rewrite Hfalse. by eexists.
Qed.

(** C6, at the failing input.  warped_clock.py tests the looked-up anomaly
    for truth ([if anomaly:]), so a year recorded with the anomaly 0.0 is
    skipped like a missing one, and it has no check for an empty result: for
    a series that records 2024 with 0.0, and for the empty series, it
    returns two empty lists instead of charting 2024 or raising.
    warped_clock2.py charts 2024 for the first series and raises
    [ValueError] for the second. *)
Theorem WarpedClock_drops_zero_anomaly_and_returns_empty :
  recorded series_with_zero 2024
  ∧ Datetime.year august_2024 = 2024
  ∧ WarpedClock.get_anomaly_for_year 2024 series_with_zero = Some 0.0%Q
  ∧ WarpedClock.calculate_time_warp_data august_2024 series_with_zero
    = Return ([], [])
  ∧ WarpedClock.calculate_time_warp_data august_2024 [] = Return ([], [])
  ∧ fst <$> WarpedClock2.calculate_time_warp_data august_2024 series_with_zero
    = Return ["2024"%string]
  ∧ WarpedClock2.calculate_time_warp_data august_2024 [] = Raise ValueError.
Proof.
  split_and!; try (by vm_compute).
  apply elem_of_cons. by left.
Qed.

(** A property kept by every iteration that returns holds of what the loop
    returns. *)
Lemma for_in_preserves {A S : Type} (P : S → Prop) (xs : list A)
    (body : A → S → outcome S) (s s' : S) :
  P s →
  (∀ x s1 s2, x ∈ xs → P s1 → body x s1 = Return s2 → P s2) →
  for_in xs body s = Return s' → P s'.
Proof.
  revert s. induction xs as [|x xs IH]; intros s Hs Hstep; simpl.
  - by intros [= <-].
  - destruct (body x s) as [s1|e] eqn:E; simpl; [|done].
    apply IH.
    + eapply Hstep; [apply elem_of_cons; by left|done..].
    + intros y s2 s3 Hy. apply Hstep. apply elem_of_cons. by right.
Qed.

(** Whatever the clock and the series, every label warped_clock.py returns
    is the current year. *)
Lemma WarpedClock_labels_current_year (now : Datetime.datetime)
    (data : list Series.record) (months : list string) (rates : list Q) :
  WarpedClock.calculate_time_warp_data now data = Return (months, rates) →
  Forall (λ label, label = fstring (Datetime.year now)) months.
Proof.
  unfold WarpedClock.calculate_time_warp_data.
  destruct (for_in _ _ _) as [[ms rs]|e] eqn:E; simpl; [|done].
  intros [= <- <-]. apply Forall_reverse.
  apply (for_in_preserves
           (λ st, Forall (λ label, label = fstring (Datetime.year now)) st.1))
    in E; [done|by constructor|].
  intros i [ms1 rs1] [ms2 rs2] Hi Hms. unfold WarpedClock.time_warp_iteration.
  apply elem_of_seqZ in Hi. rewrite Z.div_small, Z.sub_0_r by lia.
  destruct (truthy _); [|by intros [= <- <-]].
  destruct (WarpedClock.calculate_expected_anomaly _ _); simpl; [|done].
  destruct (sub _ _); simpl; [|done].
  intros [= <- <-]. simpl. apply Forall_app. split; [done|by constructor].
Qed.

(** ** The monthly warp of carbonDate4.py *)

(** C10. In carbonDate4.py, when the series has the year of the input date
    and the anomaly of the input date's month is absent, the gap filler
    leaves the months as they are, so the anomaly is still absent after it,
    and [adjust_date_based_on_anomaly] returns no result: comparing [None]
    with the target anomaly raises [TypeError]. *)
Theorem monthly_warp_faults_on_absent_month
    (data : list CarbonDate4.record) (now : Datetime.datetime)
    (input_date : option Datetime.datetime) (months : list (option Q)) :
  CarbonDate4.get_monthly_anomalies (Return data)
    (Datetime.year (default now input_date)) = Return months →
  getitem months (Datetime.month (default now input_date) - 1) = Return None →
  (∃ derivatives, CarbonDate4.fill_monthly_gaps months = Return (months, derivatives))
  ∧ ge None (Some CarbonDate4.TARGET_TEMP) = Raise TypeError
  ∧ CarbonDate4.adjusted_year None = Raise TypeError
  ∧ CarbonDate4.adjust_date_based_on_anomaly (Return data) now input_date
    = Raise TypeError.
Proof.
  intros Hget Hmonth. split_and!; [|done..|].
  - eexists. apply fill_monthly_gaps_identity.
  - unfold CarbonDate4.adjust_date_based_on_anomaly.
    rewrite Hget. simpl. rewrite fill_monthly_gaps_identity. simpl.
    by rewrite Hmonth.
Qed.

Lemma monthly_warp_faults_on_absent_month_witness :
  (∃ derivatives,
     CarbonDate4.fill_monthly_gaps sample_months
     = Return (sample_months, derivatives))
  ∧ ge None (Some CarbonDate4.TARGET_TEMP) = Raise TypeError
  ∧ CarbonDate4.adjusted_year None = Raise TypeError
  ∧ CarbonDate4.adjust_date_based_on_anomaly (Return sample_monthly_series)
      new_year_2024 (Some august_2024)
    = Raise TypeError.
Proof.
  apply (monthly_warp_faults_on_absent_month sample_monthly_series
           new_year_2024 (Some august_2024) sample_months); reflexivity.
Defined.

(** The converse: when the anomaly of the input date's month is present, the
    monthly warp returns a date and that anomaly. *)
Lemma monthly_warp_returns_on_present_month
    (data : list CarbonDate4.record) (now : Datetime.datetime)
    (input_date : option Datetime.datetime) (months : list (option Q)) (a : Q) :
  CarbonDate4.get_monthly_anomalies (Return data)
    (Datetime.year (default now input_date)) = Return months →
  getitem months (Datetime.month (default now input_date) - 1) = Return (Some a) →
  ∃ adjusted_date,
    CarbonDate4.adjust_date_based_on_anomaly (Return data) now input_date
    = Return (adjusted_date, Some a, differences months).
Proof.
  intros Hget Hmonth. unfold CarbonDate4.adjust_date_based_on_anomaly.
  rewrite Hget. simpl. rewrite fill_monthly_gaps_identity. simpl.
  rewrite Hmonth. simpl. rewrite CarbonDate4_adjusted_year. simpl. by eexists.
Qed.

(** ** More on indexing and loops *)

Section Indexing.
Context {A : Type}.
Implicit Types (l : list A) (i : Z).

Lemma index_nonneg l i j :
  0 ≤ i → index l i = Some j → j = Z.to_nat i ∧ (j < length l)%nat.
Proof.
  unfold index, len. intros Hi.
  destruct (Z.ltb_spec i 0) as [?|_]; [lia|].
  destruct (Z.leb_spec 0 i) as [_|?]; [|lia].
  destruct (Z.ltb_spec i (Z.of_nat (length l))) as [Hlt|?]; [|done].
  simpl. intros [= <-]. lia.
Qed.

Lemma getitem_nonneg l i x :
  0 ≤ i → getitem l i = Return x → l !! Z.to_nat i = Some x.
Proof.
  unfold getitem. intros Hi.
  destruct (index l i) as [j|] eqn:E; [|done].
  apply index_nonneg in E as [-> _]; [|done].
  by destruct (l !! Z.to_nat i); intros [= <-].
Qed.

Lemma setitem_nonneg l i x l' :
  0 ≤ i → setitem l i x = Return l' →
  l' = <[Z.to_nat i := x]> l ∧ (Z.to_nat i < length l)%nat.
Proof.
  unfold setitem. intros Hi.
  destruct (index l i) as [j|] eqn:E; [|done].
  apply index_nonneg in E as [-> ?]; [|done]. by intros [= <-].
Qed.

Lemma getitem_beyond l i : len l ≤ i → getitem l i = Raise IndexError.
Proof.
  unfold getitem, index. intros Hi. pose proof (Nat2Z.is_nonneg (length l)).
  unfold len in *.
  destruct (Z.ltb_spec i 0) as [?|_]; [lia|].
  destruct (Z.ltb_spec i (Z.of_nat (length l))) as [?|_]; [lia|].
  by rewrite andb_false_r.
Qed.

Lemma for_in_app {S : Type} (xs ys : list A) (body : A → S → outcome S) (s : S) :
  for_in (xs ++ ys) body s = (s' ← for_in xs body s; for_in ys body s').
Proof.
  revert s. induction xs as [|x xs IH]; intros s; simpl; [done|].
  destruct (body x s); simpl; [apply IH|done].
Qed.

End Indexing.

(** ** The gap filler on its own *)

(** X1. [calculate_monthly_derivatives] never raises and returns one slot
    fewer than it is given months (eleven for twelve, none for an empty
    list); slot [k] holds the difference month [k+1] minus month [k] when
    both are present, and is absent as soon as one of them is. *)
Theorem monthly_derivatives_slots (a : list (option Q)) :
  ∃ d,
    CarbonDate4.calculate_monthly_derivatives a = Return d
    ∧ length d = (length a - 1)%nat
    ∧ (∀ k u v, a !! k = Some (Some u) → a !! Datatypes.S k = Some (Some v) →
                d !! k = Some (Some (v - u)%Q))
    ∧ (∀ k x y, a !! k = Some x → a !! Datatypes.S k = Some y →
                x = None ∨ y = None → d !! k = Some None).
Proof.
  exists (differences a). split_and!.
  - apply calculate_monthly_derivatives_differences.
  - apply differences_length.
  - intros k u v Hu Hv. by rewrite (differences_lookup a k _ _ Hv Hu).
  - intros k x y Hx Hy Hnone. rewrite (differences_lookup a k _ _ Hy Hx).
    destruct Hnone as [->| ->]; [by destruct y|done].
Qed.

Lemma monthly_derivatives_slots_witness :
  ∃ d,
    CarbonDate4.calculate_monthly_derivatives sample_months = Return d
    ∧ length d = 11%nat
    ∧ d !! 0%nat = Some (Some (1.44 - 1.22)%Q)
    ∧ d !! 6%nat = Some None.
Proof.
  destruct (monthly_derivatives_slots sample_months) as (d & E & Hlen & Hd & Hn).
  exists d. split_and!; [exact E|exact Hlen| |].
  - apply (Hd 0%nat); reflexivity.
  - apply (Hn 6%nat (Some 1.20%Q) None); [reflexivity..|by right].
Defined.

(** X2. Whatever derivatives it is given, when [predict_missing_data]
    returns, the list it returns is as long as its input, holds every
    present entry of the input unchanged at its place, and has the first
    entry of the input as its first: only gaps after the first month are
    ever written. *)
Theorem predict_missing_data_keeps_present (a d p : list (option Q)) :
  CarbonDate4.predict_missing_data a d = Return p →
  length p = length a
  ∧ (∀ i v, a !! i = Some (Some v) → p !! i = Some (Some v))
  ∧ p !! 0%nat = a !! 0%nat.
Proof.
  unfold CarbonDate4.predict_missing_data.
  apply (for_in_preserves
           (λ p, length p = length a
                 ∧ (∀ i v, a !! i = Some (Some v) → p !! i = Some (Some v))
                 ∧ p !! 0%nat = a !! 0%nat)); [done|].
  intros i p1 p2 Hi (Hlen & Hkeep & Hfirst).
  apply elem_of_seqZ in Hi.
  destruct (getitem p1 i) as [p_i|] eqn:Ei; simpl; [|done].
  apply getitem_nonneg in Ei; [|lia].
  destruct p_i as [v|]; simpl; [by intros [= <-]|].
  destruct (getitem d (i - 1)) as [[dv|]|]; simpl; [|by intros [= <-]|done].
  destruct (getitem p1 (i - 1)) as [p_p|]; simpl; [|done].
  destruct (add p_p (Some dv)) as [w|]; simpl; [|done].
  intros [-> Hin]%setitem_nonneg; [|lia].
  rewrite length_insert. split_and!; [done| |].
  - intros j v Hj. destruct (decide (j = Z.to_nat i)) as [->|Hne].
    + apply Hkeep in Hj. congruence.
    + rewrite list_lookup_insert_ne by done. by apply Hkeep.
  - rewrite list_lookup_insert_ne by lia. done.
Qed.

Lemma predict_missing_data_keeps_present_witness :
  length [Some 1%Q; Some (1 + 0.5)%Q; Some (1 + 0.5 + 0.25)%Q; Some 4%Q]
  = length [Some 1%Q; None; None; Some 4%Q]
  ∧ (∀ i v, [Some 1%Q; None; None; Some 4%Q] !! i = Some (Some v) →
            [Some 1%Q; Some (1 + 0.5)%Q; Some (1 + 0.5 + 0.25)%Q; Some 4%Q] !! i
            = Some (Some v))
  ∧ [Some 1%Q; Some (1 + 0.5)%Q; Some (1 + 0.5 + 0.25)%Q; Some 4%Q] !! 0%nat
    = [Some 1%Q; None; None; Some 4%Q] !! 0%nat.
Proof.
  apply (predict_missing_data_keeps_present
           [Some 1%Q; None; None; Some 4%Q]
           [Some 0.5%Q; Some 0.25%Q; None]).
  reflexivity.
Defined.

(** X3. On a sequence without a gap [predict_missing_data] returns the
    sequence itself and never reads the derivatives: any list of
    derivatives will do, too short or empty ones included. *)
Theorem predict_missing_data_without_gap (a d : list (option Q)) :
  Forall (λ x, x ≠ None) a →
  CarbonDate4.predict_missing_data a d = Return a.
Proof.
  intros Hall. unfold CarbonDate4.predict_missing_data.
  match goal with
  | |- for_in ?xs ?body ?s = _ =>
      destruct (for_in_invariant (λ _ p, p = a) xs body s)
        as (p & -> & Hp); [done| |by f_equal]
  end.
  intros k i p Hi ->. apply range_lookup in Hi as [-> Hk]. unfold len in Hk.
  destruct (lookup_lt_is_Some_2 a (Datatypes.S k)) as [x Hx]; [lia|].
  replace (1 + Z.of_nat k) with (Z.of_nat (Datatypes.S k)) by lia.
  rewrite (getitem_lookup _ _ _ Hx). simpl.
  rewrite Forall_forall in Hall.
  destruct x as [x|]; simpl; [by eexists|].
  exfalso. apply (Hall None); [|done]. by eapply list_elem_of_lookup_2.
Qed.

Lemma predict_missing_data_without_gap_witness :
  CarbonDate4.predict_missing_data [Some 1.22%Q; Some 1.44%Q; Some 1.39%Q] []
  = Return [Some 1.22%Q; Some 1.44%Q; Some 1.39%Q].
Proof.
  apply (predict_missing_data_without_gap [Some 1.22%Q; Some 1.44%Q; Some 1.39%Q] []).
  repeat constructor; discriminate.
Defined.

(** X4. The derivatives carry the first month forward.  For a sequence
    [v0 :: vs] without a gap, the derivatives of the sequence and the
    sequence with every month after the first blanked give, through
    [predict_missing_data], a sequence of the same length without a gap: its
    first month is [v0], and every later month is literally the month
    predicted just before it plus the derivative of the original sequence
    (month [k+1] minus month [k]).  Each gap is filled from the predicted
    value of the month before, not from an original one. *)
Theorem derivatives_rebuild_series (v0 : Q) (vs : list Q) :
  ∃ d p,
    CarbonDate4.calculate_monthly_derivatives (Some <$> v0 :: vs) = Return d
    ∧ CarbonDate4.predict_missing_data
        (Some v0 :: replicate (length vs) None) d = Return p
    ∧ length p = Datatypes.S (length vs)
    ∧ Forall (λ x, x ≠ None) p
    ∧ p !! 0%nat = Some (Some v0)
    ∧ ∀ k w v v',
        p !! k = Some (Some w) →
        (v0 :: vs) !! k = Some v → (v0 :: vs) !! Datatypes.S k = Some v' →
        p !! Datatypes.S k = Some (Some (w + (v' - v))%Q).
Proof.
  set (a := Some <$> v0 :: vs). set (n := length vs).
  exists (differences a).
  cut (∃ p, CarbonDate4.predict_missing_data
              (Some v0 :: replicate n None) (differences a) = Return p
            ∧ length p = Datatypes.S n
            ∧ p !! 0%nat = Some (Some v0)
            ∧ (∀ j, (j ≤ n)%nat → ∃ w, p !! j = Some (Some w))
            ∧ (∀ j w v v', (j < n)%nat → p !! j = Some (Some w) →
                 (v0 :: vs) !! j = Some v → (v0 :: vs) !! Datatypes.S j = Some v' →
                 p !! Datatypes.S j = Some (Some (w + (v' - v))%Q))).
  { intros (p & Hp & Hlen & Hfirst & Hfilled & Hchain). exists p.
    split; [apply calculate_monthly_derivatives_differences|].
    split_and!; [done..| |done|].
    - apply Forall_forall. intros x [j Hj]%list_elem_of_lookup Hx. subst x.
      destruct (Hfilled j) as [w Hw]; [apply lookup_lt_Some in Hj; lia|].
      rewrite Hj in Hw. discriminate.
    - intros k w v v' Hw Hv Hv'. apply (Hchain k w v v'); [|done..].
      apply lookup_lt_Some in Hv'. simpl in Hv'. fold n in Hv'. lia. }
  unfold CarbonDate4.predict_missing_data.
  match goal with
  | |- ∃ p, for_in ?xs ?body ?s = _ ∧ _ =>
      destruct (for_in_invariant
                  (λ k p, length p = Datatypes.S n
                          ∧ p !! 0%nat = Some (Some v0)
                          ∧ (∀ j, (j ≤ k)%nat → ∃ w, p !! j = Some (Some w))
                          ∧ (∀ j w v v', (j < k)%nat → p !! j = Some (Some w) →
                               (v0 :: vs) !! j = Some v →
                               (v0 :: vs) !! Datatypes.S j = Some v' →
                               p !! Datatypes.S j = Some (Some (w + (v' - v))%Q))
                          ∧ (∀ j, (k < j < Datatypes.S n)%nat → p !! j = Some None))
                  xs body s)
        as (p & -> & Hlen & Hfirst & Hfilled & Hchain & _)
  end.
  - split_and!.
    + simpl. by rewrite length_replicate.
    + done.
    + intros j Hj. replace j with 0%nat by lia. by exists v0.
    + intros j w v v' Hj. lia.
    + intros [|j] Hj; [lia|]. simpl. apply lookup_replicate_2. lia.
  - intros k i p Hi (Hlen & Hfirst & Hfilled & Hchain & Hblank).
    apply range_lookup in Hi as [-> Hk]. unfold len in Hk. simpl in Hk.
    rewrite length_replicate in Hk. fold n in Hk.
    replace (1 + Z.of_nat k) with (Z.of_nat (Datatypes.S k)) by lia.
    rewrite (getitem_lookup _ _ _ (Hblank (Datatypes.S k) ltac:(lia))). simpl.
    replace (Z.of_nat (Datatypes.S k) - 1) with (Z.of_nat k) by lia.
    destruct (Hfilled k ltac:(lia)) as (w & Hw).
    destruct (lookup_lt_is_Some_2 (v0 :: vs) k) as [v Hv];
      [simpl; fold n; lia|].
    destruct (lookup_lt_is_Some_2 (v0 :: vs) (Datatypes.S k)) as [v' Hv'];
      [simpl; fold n; lia|].
    assert (differences a !! k = Some (Some (v' - v)%Q)) as Hd.
    { apply (differences_lookup a k (Some v') (Some v)); unfold a;
        rewrite list_lookup_fmap; [by rewrite Hv'|by rewrite Hv]. }
    rewrite (getitem_lookup _ _ _ Hd). simpl.
    rewrite (getitem_lookup _ _ _ Hw). simpl.
    unfold setitem. rewrite index_of_nat by lia.
    eexists. split; [done|]. rewrite length_insert. split_and!; [done| | | |].
    + by rewrite list_lookup_insert_ne by lia.
    + intros j Hj. destruct (decide (j = Datatypes.S k)) as [->|Hne].
      * eexists. by rewrite list_lookup_insert_eq by lia.
      * rewrite list_lookup_insert_ne by done. apply Hfilled. lia.
    + intros j w1 v1 v1' Hj Hw1 Hv1 Hv1'.
      destruct (decide (j = k)) as [->|Hne].
      * rewrite list_lookup_insert_ne in Hw1 by lia.
        rewrite list_lookup_insert_eq by lia.
        rewrite Hw in Hw1. rewrite Hv in Hv1.
        change (vs !! k = Some v') in Hv'. change (vs !! k = Some v1') in Hv1'.
        rewrite Hv' in Hv1'. by simplify_eq.
      * rewrite list_lookup_insert_ne in Hw1 by lia.
        rewrite list_lookup_insert_ne by lia.
        apply (Hchain j w1 v1 v1'); [lia|done..].
    + intros j Hj. rewrite list_lookup_insert_ne by lia. apply Hblank. lia.
  - exists p. rewrite range_length in Hfilled, Hchain.
    unfold len in Hfilled, Hchain. simpl in Hfilled, Hchain.
    rewrite length_replicate in Hfilled, Hchain. fold n in Hfilled, Hchain.
    replace (Z.to_nat (Z.of_nat (Datatypes.S n) - 1)) with n in * by lia.
    split_and!; [done..|].
    intros j w v v' Hj Hw Hv Hv'. by apply (Hchain j w v v').
Qed.

Lemma predict_missing_data_iterations (a d : list (option Q)) :
  CarbonDate4.predict_missing_data a d
  = for_in (range 1 (len a)) (predict_iteration d) a.
Proof. reflexivity. Qed.

Lemma range_split (a b c : Z) :
  a ≤ b ≤ c → range a c = range a b ++ range b c.
Proof.
  intros H. unfold range.
  replace (c - a) with ((b - a) + (c - b)) by lia.
  rewrite seqZ_app by lia. do 2 f_equal. lia.
Qed.

Lemma range_first (b c : Z) : b < c → range b c = b :: range (b + 1) c.
Proof.
  intros H. unfold range. rewrite seqZ_cons by lia. do 2 f_equal. lia.
Qed.

(** The iterations over months that are present change nothing. *)
Lemma predict_iterations_present (a d : list (option Q)) (m : nat) :
  (m ≤ length a)%nat →
  Forall (λ x, x ≠ None) (take m a) →
  for_in (range 1 (Z.of_nat m)) (predict_iteration d) a = Return a.
Proof.
  intros Hm Hall.
  destruct (for_in_invariant (λ _ p, p = a) (range 1 (Z.of_nat m))
              (predict_iteration d) a) as (p & -> & Hp); [done| |by f_equal].
  intros k i p Hi ->. apply range_lookup in Hi as [-> Hk].
  destruct (lookup_lt_is_Some_2 a (Datatypes.S k)) as [x Hx]; [lia|].
  replace (1 + Z.of_nat k) with (Z.of_nat (Datatypes.S k)) by lia.
  unfold predict_iteration. rewrite (getitem_lookup _ _ _ Hx). simpl.
  destruct x as [x|]; simpl; [by eexists|].
  rewrite Forall_forall in Hall. exfalso. apply (Hall None); [|done].
  apply list_elem_of_lookup. exists (Datatypes.S k).
  rewrite lookup_take_lt by lia. done.
Qed.

(** X5. What [predict_missing_data] raises, and where.  Let the months
    before a gap all be present.  When the gap is followed by a second gap
    whose derivative is supplied, and the first gap is not filled (it is the
    first month, or its own derivative is absent), adding that derivative to
    [None] raises [TypeError].  When the list of derivatives is too short to
    hold the slot of the gap, reading the slot raises [IndexError].  The gap
    filler catches neither. *)
Theorem predict_missing_data_raises
    (pre rest d : list (option Q)) (dv : Q) :
  Forall (λ x, x ≠ None) pre →
  (pre = [] ∨ d !! (length pre - 1)%nat = Some None →
   d !! length pre = Some (Some dv) →
   CarbonDate4.predict_missing_data (pre ++ None :: None :: rest) d
   = Raise TypeError)
  ∧ (pre ≠ [] → (length d < length pre)%nat →
     CarbonDate4.predict_missing_data (pre ++ None :: rest) d
     = Raise IndexError).
Proof.
  intros Hpre. set (m := length pre). split.
  - intros Hfirst Hd. set (a := pre ++ None :: None :: rest).
    assert (length a = (m + 2 + length rest)%nat) as Hlen
      by (unfold a; rewrite length_app; simpl; lia).
    assert (a !! m = Some None) as Ham
      by (unfold a; by rewrite lookup_app_r, Nat.sub_diag by done).
    assert (a !! Datatypes.S m = Some None) as HaSm.
    { unfold a. rewrite lookup_app_r by (fold m; lia).
      by replace (Datatypes.S m - length pre)%nat with 1%nat by (fold m; lia). }
    assert (predict_iteration d (Z.of_nat (Datatypes.S m)) a = Raise TypeError)
      as Hraise.
    { unfold predict_iteration. rewrite (getitem_lookup _ _ _ HaSm). simpl.
      replace (Z.of_nat (Datatypes.S m) - 1) with (Z.of_nat m) by lia.
      rewrite (getitem_lookup _ _ _ Hd). simpl.
      by rewrite (getitem_lookup _ _ _ Ham). }
    rewrite predict_missing_data_iterations. unfold len. rewrite Hlen.
    destruct Hfirst as [Hnil|Hslot].
    + assert (m = 0%nat) as Hm0 by (unfold m; by rewrite Hnil).
      rewrite Hm0 in *. rewrite range_first by lia. simpl for_in.
      change 1 with (Z.of_nat 1). by rewrite Hraise.
    + assert (m ≠ 0%nat) as Hm0.
      { intros Hm0. rewrite Hm0 in Hd, Hslot. simpl in Hslot. congruence. }
      rewrite (range_split 1 (Z.of_nat m)) by lia.
      rewrite for_in_app, predict_iterations_present; [|lia|].
      2:{ unfold a, m. by rewrite take_app_length. }
      simpl. rewrite range_first by lia. simpl for_in.
      assert (predict_iteration d (Z.of_nat m) a = Return a) as ->.
      { unfold predict_iteration. rewrite (getitem_lookup _ _ _ Ham). simpl.
        replace (Z.of_nat m - 1) with (Z.of_nat (m - 1)) by lia.
        by rewrite (getitem_lookup _ _ _ Hslot). }
      simpl. rewrite range_first by lia. simpl for_in.
      replace (Z.of_nat m + 1) with (Z.of_nat (Datatypes.S m)) by lia.
      by rewrite Hraise.
  - intros Hne Hshort. set (a := pre ++ None :: rest).
    assert (m ≠ 0%nat) as Hm0 by (unfold m; by destruct pre).
    assert (length a = (m + 1 + length rest)%nat) as Hlen
      by (unfold a; rewrite length_app; simpl; lia).
    assert (a !! m = Some None) as Ham
      by (unfold a; by rewrite lookup_app_r, Nat.sub_diag by done).
    rewrite predict_missing_data_iterations. unfold len. rewrite Hlen.
    rewrite (range_split 1 (Z.of_nat m)) by lia.
    rewrite for_in_app, predict_iterations_present; [|lia|].
    2:{ unfold a, m. by rewrite take_app_length. }
    simpl. rewrite range_first by lia. simpl for_in.
    assert (predict_iteration d (Z.of_nat m) a = Raise IndexError) as ->; [|done].
    unfold predict_iteration. rewrite (getitem_lookup _ _ _ Ham). simpl.
    by rewrite (getitem_beyond d) by (unfold len; lia).
Qed.

Lemma predict_missing_data_raises_witness :
  CarbonDate4.predict_missing_data
    ([Some 1.22%Q; Some 1.44%Q] ++ None :: None :: [Some 1.20%Q])
    [Some 0.22%Q; None; Some 0.1%Q; None]
  = Raise TypeError
  ∧ CarbonDate4.predict_missing_data
      ([Some 1.22%Q; Some 1.44%Q] ++ None :: [Some 1.20%Q]) [Some 0.22%Q]
    = Raise IndexError.
Proof.
  assert (Forall (λ x : option Q, x ≠ None) [Some 1.22%Q; Some 1.44%Q]) as H
    by (repeat constructor; discriminate).
  split.
  - apply (predict_missing_data_raises [Some 1.22%Q; Some 1.44%Q] [Some 1.20%Q]
             [Some 0.22%Q; None; Some 0.1%Q; None] 0.1 H);
      [by right|reflexivity].
  - apply (predict_missing_data_raises [Some 1.22%Q; Some 1.44%Q] [Some 1.20%Q]
             [Some 0.22%Q] 0 H); [discriminate|simpl; lia].
Defined.

(** ** The monthly warp of carbonDate4.py, continued *)

(** The month of a date is a month of the year. *)
Lemma month_in_year (d : Datetime.datetime) : 1 ≤ Datetime.month d ≤ 12.
Proof.
  unfold Datetime.month, Datetime.ord2ymd. cbv zeta.
  set (n400 := _ mod Datetime.DI400Y).
  set (n100 := n400 mod Datetime.DI100Y).
  set (n4 := n100 mod Datetime.DI4Y).
  set (n := n4 mod 365).
  assert (0 ≤ n < 365) as Hn by (apply Z.mod_pos_bound; lia).
  destruct (_ || _); [simpl; lia|].
  generalize ((n4 `div` 365 =? 3)
              && (negb (n100 `div` Datetime.DI4Y =? 24)
                  || (n400 `div` Datetime.DI100Y =? 3))).
  intros leapyear.
  assert (forallb
            (λ n, forallb
               (λ leapyear : bool,
                  let month := Z.shiftr (n + 50) 5 in
                  let preceding :=
                    Datetime.table Datetime.DAYS_BEFORE_MONTH month
                    + Datetime.b2z ((2 <? month) && leapyear) in
                  let m := if n <? preceding then month - 1 else month in
                  (1 <=? m) && (m <=? 12))
               [true; false])
            (seqZ 0 365) = true) as Hall by (by vm_compute).
  rewrite forallb_forall in Hall.
  specialize (Hall n). rewrite <- list_elem_of_In, elem_of_seqZ in Hall.
  specialize (Hall ltac:(lia)). rewrite forallb_forall in Hall.
  specialize (Hall leapyear).
  rewrite <- list_elem_of_In in Hall.
  assert (leapyear ∈ [true; false]) as Hb
    by (destruct leapyear; rewrite !elem_of_cons; tauto).
  specialize (Hall Hb). cbv zeta in Hall.
  destruct (n <? _); simpl; lia.
Qed.

Lemma get_monthly_anomalies_loop_cases (data : list CarbonDate4.record) (y : Z) :
  (Forall (λ r, CarbonDate4.year r ≠ y) data
   ∧ CarbonDate4.get_monthly_anomalies_loop data y = Raise ValueError)
  ∨ (∃ r, r ∈ data ∧ CarbonDate4.year r = y
          ∧ CarbonDate4.get_monthly_anomalies_loop data y
            = Return (CarbonDate4.monthly_anomalies r)).
Proof.
  induction data as [|r0 data IH]; simpl; [by left|].
  destruct (Z.eqb_spec (CarbonDate4.year r0) y) as [E|E].
  - right. exists r0. split_and!; [apply elem_of_cons; by left|done..].
  - destruct IH as [[Hall ->]|(r & Hin & Hy & ->)].
    + left. split; [by constructor|done].
    + right. exists r. split_and!; [apply elem_of_cons; by right|done..].
Qed.

(** X6. The monthly warp of carbonDate4.py on a present month.  Let the
    series have the year of the input date and let the anomaly [a] of its
    month be present.  Whenever [adjust_date_based_on_anomaly] returns, it
    returns that anomaly, the derivatives of the year's months as recorded,
    and a date that is at most [(2100 - year) * 365.25] days after the input
    date, exactly that many when [a] is at least the target 1.5, and at
    least [(1880 - year) * 365.25] days after it when [a] is not negative. *)
Theorem CarbonDate4_adjust_on_present_month
    (data : list CarbonDate4.record) (now : Datetime.datetime)
    (input_date : option Datetime.datetime) (months : list (option Q)) (a : Q)
    (adjusted_date : Datetime.datetime) (current_anomaly : option Q)
    (derivatives : list (option Q)) :
  CarbonDate4.get_monthly_anomalies (Return data)
    (Datetime.year (default now input_date)) = Return months →
  getitem months (Datetime.month (default now input_date) - 1) = Return (Some a) →
  CarbonDate4.adjust_date_based_on_anomaly (Return data) now input_date
  = Return (adjusted_date, current_anomaly, derivatives) →
  current_anomaly = Some a
  ∧ CarbonDate4.calculate_monthly_derivatives months = Return derivatives
  ∧ (adjusted_date
     <= default now input_date
        + (2100 - inject_Z (Datetime.year (default now input_date))) * 365.25)%Q
  ∧ ((1.5 <= a)%Q →
     (adjusted_date
      == default now input_date
         + (2100 - inject_Z (Datetime.year (default now input_date))) * 365.25)%Q)
  ∧ ((0 <= a)%Q →
     (default now input_date
      + (1880 - inject_Z (Datetime.year (default now input_date))) * 365.25
      <= adjusted_date)%Q).
Proof.
  intros Hget Hmonth. destruct CarbonDate4_config as [Hy Ht].
  set (d := default now input_date) in *.
  set (w := proportional_year 1880 CarbonDate4.TARGET_YEAR CarbonDate4.TARGET_TEMP a).
  assert (CarbonDate4.adjust_date_based_on_anomaly (Return data) now input_date
          = Return (Datetime.add d
                      (Datetime.days ((w - inject_Z (Datetime.year d)) * 365.25)),
                    Some a, differences months)) as ->.
  { unfold CarbonDate4.adjust_date_based_on_anomaly. fold d.
    rewrite Hget. simpl. rewrite fill_monthly_gaps_identity. simpl.
    rewrite Hmonth. simpl. by rewrite CarbonDate4_adjusted_year. }
  intros [= <- <- <-]. split_and!.
  - done.
  - apply calculate_monthly_derivatives_differences.
  - pose proof (warped_le_target_year 1880 CarbonDate4.TARGET_YEAR
                  CarbonDate4.TARGET_TEMP ltac:(lia) Ht a) as Hle.
    fold w in Hle. unfold Datetime.add, Datetime.days.
    change (inject_Z CarbonDate4.TARGET_YEAR) with 2100%Q in Hle. lra.
  - intros Ha.
    pose proof (warped_clamp 1880 CarbonDate4.TARGET_YEAR
                  CarbonDate4.TARGET_TEMP a Ha) as Hw.
    fold w in Hw. unfold Datetime.add, Datetime.days. rewrite Hw.
    change (inject_Z CarbonDate4.TARGET_YEAR) with 2100%Q. reflexivity.
  - intros Ha.
    pose proof (warped_ge_baseline 1880 CarbonDate4.TARGET_YEAR
                  CarbonDate4.TARGET_TEMP ltac:(lia) Ht a Ha) as Hge.
    fold w in Hge. unfold Datetime.add, Datetime.days.
    change (inject_Z 1880) with 1880%Q in Hge. lra.
Qed.

Lemma CarbonDate4_adjust_on_present_month_witness :
  ∃ (adjusted_date : Datetime.datetime) (derivatives : list (option Q)),
    CarbonDate4.adjust_date_based_on_anomaly (Return sample_monthly_series)
      august_2024 (Some new_year_2024)
    = Return (adjusted_date, Some 1.22%Q, derivatives)
    ∧ CarbonDate4.calculate_monthly_derivatives sample_months = Return derivatives
    ∧ (adjusted_date <= new_year_2024 + (2100 - 2024) * 365.25)%Q
    ∧ (new_year_2024 + (1880 - 2024) * 365.25 <= adjusted_date)%Q.
Proof.
  eexists _, _. split; [reflexivity|].
  edestruct (CarbonDate4_adjust_on_present_month sample_monthly_series
               august_2024 (Some new_year_2024) sample_months 1.22)
    as (_ & Ed & Hle & _ & Hge); [reflexivity..|].
  split_and!; [exact Ed|exact Hle|]. apply Hge. by vm_compute.
Defined.

(** ** The fetch functions *)

Lemma fetch_month_loop_length (py : Text.builtins) (row : list string)
    (xs : list Z) (acc months : list (option Q)) :
  for_in xs (CarbonDate4.fetch_month py row) acc = Return months →
  length months = (length acc + length xs)%nat.
Proof.
  revert acc. induction xs as [|i xs IH]; intros acc; simpl.
  - intros [= <-]. lia.
  - destruct (CarbonDate4.fetch_month py row i acc) as [acc'|] eqn:E; simpl;
      [|done].
    unfold CarbonDate4.fetch_month in E.
    destruct (Try.except_ValueError _ _) as [v|]; simpl in E; [|done].
    injection E as <-. intros ->%IH. rewrite length_app. simpl. lia.
Qed.

Lemma bind_Return {A B : Type} (m : outcome A) (k : A → outcome B) (b : B) :
  m ≫= k = Return b → ∃ a, m = Return a ∧ k a = Return b.
Proof. destruct m as [a|e]; [by exists a|done]. Qed.

Lemma CarbonDate4_fetch_row_twelve (py : Text.builtins) (row : list string)
    (td1 td2 : list CarbonDate4.record) :
  Forall (λ r, length (CarbonDate4.monthly_anomalies r) = 12%nat) td1 →
  CarbonDate4.fetch_row py row td1 = Return td2 →
  Forall (λ r, length (CarbonDate4.monthly_anomalies r) = 12%nat) td2.
Proof.
  intros Htd. unfold CarbonDate4.fetch_row.
  intros ([|] & _ & H)%bind_Return; [|by injection H as <-].
  apply bind_Return in H as (cell & _ & H).
  apply bind_Return in H as (year & _ & H).
  apply bind_Return in H as (months & E & H).
  injection H as <-. apply Forall_app. split; [done|].
  constructor; [|constructor]. simpl.
  by apply fetch_month_loop_length in E.
Qed.

(** X7. Every record [fetch_global_temperature_data] of carbonDate4.py
    returns holds exactly twelve monthly entries, present or absent,
    whatever the response and the parsers. *)
Theorem CarbonDate4_fetch_twelve_months
    (py : Text.builtins) (get : outcome Requests.response)
    (data : list CarbonDate4.record) :
  CarbonDate4.fetch_global_temperature_data py get = Return data →
  Forall (λ r, length (CarbonDate4.monthly_anomalies r) = 12%nat) data.
Proof.
  unfold CarbonDate4.fetch_global_temperature_data.
  intros (response & _ & H)%bind_Return.
  destruct (_ =? 200); [|done]. revert H.
  apply for_in_preserves; [constructor|].
  intros row td1 td2 _ Htd Hrow.
  by apply (CarbonDate4_fetch_row_twelve py row td1 td2).
Qed.

Lemma CarbonDate4_fetch_twelve_months_witness :
  ∃ data,
    CarbonDate4.fetch_global_temperature_data sample_builtins
      (Return sample_response) = Return data
    ∧ (CarbonDate4.year <$> data) = [2023; 2024]
    ∧ Forall (λ r, length (CarbonDate4.monthly_anomalies r) = 12%nat) data.
Proof.
  eexists. split; [reflexivity|]. split; [reflexivity|].
  apply (CarbonDate4_fetch_twelve_months sample_builtins (Return sample_response)).
  reflexivity.
Defined.

(** X8. Reading the month never runs off the list.  On the series
    [fetch_global_temperature_data] of carbonDate4.py returned, whatever the
    date: when the series has the year of the date, the entry of the date's
    month is read from the year's months without [IndexError], since the
    record holds twelve entries and the month is one of twelve; and
    [adjust_date_based_on_anomaly] does not raise [IndexError]. *)
Theorem CarbonDate4_adjust_outcomes
    (py : Text.builtins) (get : outcome Requests.response)
    (data : list CarbonDate4.record) (now : Datetime.datetime)
    (input_date : option Datetime.datetime) :
  CarbonDate4.fetch_global_temperature_data py get = Return data →
  (∀ months,
     CarbonDate4.get_monthly_anomalies (Return data)
       (Datetime.year (default now input_date)) = Return months →
     length months = 12%nat
     ∧ ∃ entry,
         getitem months (Datetime.month (default now input_date) - 1)
         = Return entry)
  ∧ CarbonDate4.adjust_date_based_on_anomaly (Return data) now input_date
    ≠ Raise IndexError.
Proof.
  intros Hfetch. set (d := default now input_date).
  assert (Forall (λ r, length (CarbonDate4.monthly_anomalies r) = 12%nat) data)
    as Htwelve.
  { revert Hfetch. unfold CarbonDate4.fetch_global_temperature_data.
    intros (response & _ & H)%bind_Return.
    destruct (_ =? 200); [|done]. revert H.
    apply for_in_preserves; [constructor|].
    intros row td1 td2 _ Htd Hrow.
    by apply (CarbonDate4_fetch_row_twelve py row td1 td2). }
  rewrite Forall_forall in Htwelve.
  pose proof (month_in_year d) as Hm.
  destruct (get_monthly_anomalies_loop_cases data (Datetime.year d))
    as [[Hnone E]|(r & Hin & Hy & E)].
  - split.
    + intros months. simpl. by rewrite E.
    + unfold CarbonDate4.adjust_date_based_on_anomaly. fold d. simpl.
      by rewrite E.
  - specialize (Htwelve r Hin).
    set (found := CarbonDate4.monthly_anomalies r) in *.
    destruct (lookup_lt_is_Some_2 found (Z.to_nat (Datetime.month d - 1)))
      as [v Hv]; [lia|].
    apply getitem_lookup in Hv. rewrite Z2Nat.id in Hv by lia.
    split.
    + intros months. simpl. rewrite E. intros [= <-]. split; [done|by exists v].
    + unfold CarbonDate4.adjust_date_based_on_anomaly. fold d. simpl.
      rewrite E. simpl. rewrite fill_monthly_gaps_identity. simpl.
      rewrite Hv. simpl. destruct v as [a|]; [|done].
      by rewrite CarbonDate4_adjusted_year.
Qed.

Lemma CarbonDate4_adjust_outcomes_witness :
  ∃ data,
    CarbonDate4.fetch_global_temperature_data sample_builtins
      (Return sample_response) = Return data
    ∧ (∀ months,
         CarbonDate4.get_monthly_anomalies (Return data)
           (Datetime.year august_2024) = Return months →
         length months = 12%nat
         ∧ ∃ entry,
             getitem months (Datetime.month august_2024 - 1) = Return entry)
    ∧ CarbonDate4.adjust_date_based_on_anomaly (Return data) new_year_2024 
        (Some august_2024)
      ≠ Raise IndexError.
Proof.
  eexists. split; [reflexivity|].
  apply (CarbonDate4_adjust_outcomes sample_builtins (Return sample_response)
           _ new_year_2024 (Some august_2024)).
  reflexivity.
Defined.

Lemma except_ValueError_Return {A : Type} (body handler : outcome A) (a : A) :
  Try.except_ValueError body handler = Return a →
  body = Return a ∨ (body = Raise ValueError ∧ handler = Return a).
Proof.
  destruct body as [b|[]]; simpl; intros H; try done; [by left|by right].
Qed.

Lemma CarbonDate_fetch_row_sound (py : Text.builtins) (row : list string)
    (td1 td2 : list Series.record) (r : Series.record) :
  CarbonDate.fetch_row py row td1 = Return td2 → r ∈ td2 →
  r ∈ td1
  ∨ ∃ c0 c13,
      1 < len row ∧ row !! 0%nat = Some c0 ∧ row !! 13%nat = Some c13
      ∧ Text.isdigit py c0 = true
      ∧ Text.int py c0 = Return (Series.year r)
      ∧ Text.float py c13 = Return (Series.anomaly r).
Proof.
  unfold CarbonDate.fetch_row.
  intros (is_data & Hdata & H)%bind_Return.
  destruct is_data; [|injection H as <-; by left].
  destruct (Z.ltb_spec 1 (len row)) as [Hlen|_]; [|done].
  apply bind_Return in Hdata as (c0 & Hc0 & [= Hdigit]).
  apply bind_Return in H as (c0' & Hc0' & H).
  rewrite Hc0 in Hc0'. injection Hc0' as <-.
  apply bind_Return in H as (year & Hyear & H).
  apply bind_Return in H as (anomaly & Hanomaly & H).
  destruct anomaly as [a|]; injection H as <-; [|by left].
  intros [Hin|Hin%list_elem_of_singleton]%elem_of_app; [by left|]. subst r.
  right. apply except_ValueError_Return in Hanomaly as [Hbody|[_ [=]]].
  apply bind_Return in Hbody as (c13 & Hc13 & Hfloat).
  destruct (Text.float py c13) as [a'|] eqn:Ef; [|done].
  injection Hfloat as ->.
  apply getitem_nonneg in Hc0, Hc13; [|lia..].
  by exists c0, c13.
Qed.

(** X9. Nothing in the annual series is made up.  For the fetch function of
    carbonDate.py, carbonDate3.py and warped_clock.py alike: when it returns
    a series, the status of the response was 200 and every record of the
    series stems from a row of the table that has at least fourteen cells
    and a first cell of digits; the year of the record is [int] of that
    first cell and its anomaly is [float] of the fourteenth.  A row whose
    fourteenth cell does not parse contributes nothing, no default value. *)
Theorem annual_fetch_records_from_rows
    (fetch : Text.builtins → outcome Requests.response → outcome (list Series.record))
    (py : Text.builtins) (get : outcome Requests.response)
    (data : list Series.record) (r : Series.record) :
  fetch = CarbonDate.fetch_global_temperature_data
  ∨ fetch = CarbonDate3.fetch_global_temperature_data
  ∨ fetch = WarpedClock.fetch_global_temperature_data →
  fetch py get = Return data → r ∈ data →
  ∃ response row c0 c13,
    get = Return response ∧ Requests.status_code response = 200
    ∧ row ∈ Requests.rows response
    ∧ 1 < len row ∧ row !! 0%nat = Some c0 ∧ row !! 13%nat = Some c13
    ∧ Text.isdigit py c0 = true
    ∧ Text.int py c0 = Return (Series.year r)
    ∧ Text.float py c13 = Return (Series.anomaly r).
Proof.
  intros Hfetch.
  assert (fetch = CarbonDate.fetch_global_temperature_data) as ->
    by (by destruct Hfetch as [->|[->| ->]]).
  unfold CarbonDate.fetch_global_temperature_data.
  intros (response & -> & H)%bind_Return Hin.
  destruct (Z.eqb_spec (Requests.status_code response) 200) as [Hs|]; [|done].
  exists response.
  cut (∃ row c0 c13,
         row ∈ Requests.rows response
         ∧ 1 < len row ∧ row !! 0%nat = Some c0 ∧ row !! 13%nat = Some c13
         ∧ Text.isdigit py c0 = true
         ∧ Text.int py c0 = Return (Series.year r)
         ∧ Text.float py c13 = Return (Series.anomaly r)).
  { intros (row & c0 & c13 & ?). by exists row, c0, c13. }
  revert Hin. revert H.
  apply (for_in_preserves (λ td, r ∈ td → _)); [by intros ?%elem_of_nil|].
  intros row td1 td2 Hrow IH Hstep Hin.
  destruct (CarbonDate_fetch_row_sound py row td1 td2 r Hstep Hin)
    as [Hold|(c0 & c13 & ?)]; [by apply IH|].
  by exists row, c0, c13.
Qed.

Lemma annual_fetch_records_from_rows_witness :
  ∃ response row c0 c13,
    Return sample_response = Return response
    ∧ Requests.status_code response = 200
    ∧ row ∈ Requests.rows response
    ∧ 1 < len row ∧ row !! 0%nat = Some c0 ∧ row !! 13%nat = Some c13
    ∧ Text.isdigit sample_builtins c0 = true
    ∧ Text.int sample_builtins c0 = Return 2023
    ∧ Text.float sample_builtins c13 = Return 1.17%Q.
Proof.
  apply (annual_fetch_records_from_rows
           WarpedClock.fetch_global_temperature_data sample_builtins
           (Return sample_response) [record_of 2023 1.17] (record_of 2023 1.17)).
  - right. right. reflexivity.
  - reflexivity.
  - apply elem_of_cons. by left.
Defined.

Lemma CarbonDate_fetch_row_short (py : Text.builtins) (row : list string)
    (c0 : string) (y : Z) (td : list Series.record) :
  1 < len row ≤ 13 → row !! 0%nat = Some c0 →
  Text.isdigit py c0 = true → Text.int py c0 = Return y →
  CarbonDate.fetch_row py row td = Raise IndexError.
Proof.
  intros Hlen Hc0 Hdigit Hint. unfold CarbonDate.fetch_row.
  destruct (Z.ltb_spec 1 (len row)) as [_|?]; [|lia].
  change 0 with (Z.of_nat 0). rewrite (getitem_lookup _ _ _ Hc0). simpl.
  rewrite Hdigit, Hint. simpl.
  by rewrite getitem_beyond by lia.
Qed.

Lemma WarpedClock2_fetch_row_short (py : Text.builtins) (row : list string)
    (c0 : string) (y : Z) (td : list Series.record) :
  1 < len row ≤ 13 → row !! 0%nat = Some c0 →
  Text.isdigit py c0 = true → Text.int py c0 = Return y →
  WarpedClock2.fetch_row py row td = Raise IndexError.
Proof.
  intros Hlen Hc0 Hdigit Hint. unfold WarpedClock2.fetch_row.
  destruct (Z.ltb_spec 1 (len row)) as [_|?]; [|lia].
  change 0 with (Z.of_nat 0). rewrite (getitem_lookup _ _ _ Hc0). simpl.
  rewrite Hdigit, Hint. simpl.
  by rewrite getitem_beyond by lia.
Qed.

(** X10. A short data row stops the fetch.  Let the table hold a row with
    a first cell of digits that [int] accepts and with fewer than fourteen
    cells, and let the rows before it be read without an exception.  Then
    the fetch function of carbonDate.py, carbonDate3.py and warped_clock.py
    does not skip the row: reading the fourteenth cell raises [IndexError],
    which [except ValueError] does not catch, and the rows after it are not
    read.  warped_clock2.py raises its [Exception] for the same table. *)
Theorem annual_fetch_short_row_raises
    (fetch : Text.builtins → outcome Requests.response → outcome (list Series.record))
    (py : Text.builtins) (pre post : list (list string)) (row : list string)
    (c0 : string) (y : Z) (td : list Series.record) :
  fetch = CarbonDate.fetch_global_temperature_data
  ∨ fetch = CarbonDate3.fetch_global_temperature_data
  ∨ fetch = WarpedClock.fetch_global_temperature_data →
  fetch py (Return {| Requests.status_code := 200; Requests.rows := pre |})
  = Return td →
  1 < len row ≤ 13 → row !! 0%nat = Some c0 →
  Text.isdigit py c0 = true → Text.int py c0 = Return y →
  fetch py (Return {| Requests.status_code := 200;
                      Requests.rows := pre ++ row :: post |})
  = Raise IndexError
  ∧ WarpedClock2.fetch_global_temperature_data py
      (Return {| Requests.status_code := 200;
                 Requests.rows := pre ++ row :: post |})
    = Raise Exception.
Proof.
  intros Hfetch Hpre Hlen Hc0 Hdigit Hint. split.
  - assert (CarbonDate.fetch_global_temperature_data py
              (Return {| Requests.status_code := 200; Requests.rows := pre |})
            = Return td) as Hpre'
      by (by destruct Hfetch as [->|[->| ->]]).
    assert (CarbonDate.fetch_global_temperature_data py
              (Return {| Requests.status_code := 200;
                         Requests.rows := pre ++ row :: post |})
            = Raise IndexError) as Hraise.
    { revert Hpre'. unfold CarbonDate.fetch_global_temperature_data. simpl.
      rewrite for_in_app. intros ->. simpl.
      by rewrite (CarbonDate_fetch_row_short py row c0 y). }
    by destruct Hfetch as [->|[->| ->]].
  - unfold WarpedClock2.fetch_global_temperature_data. simpl.
    rewrite for_in_app.
    destruct (for_in pre (WarpedClock2.fetch_row py) []) as [td'|]; simpl; [|done].
    by rewrite (WarpedClock2_fetch_row_short py row c0 y).
Qed.

Lemma annual_fetch_short_row_raises_witness :
  CarbonDate.fetch_global_temperature_data sample_builtins
    (Return {| Requests.status_code := 200; Requests.rows := short_rows |})
  = Raise IndexError
  ∧ WarpedClock2.fetch_global_temperature_data sample_builtins
      (Return {| Requests.status_code := 200; Requests.rows := short_rows |})
    = Raise Exception.
Proof.
  apply (annual_fetch_short_row_raises
           CarbonDate.fetch_global_temperature_data sample_builtins
           [ ["Year"; "Jan"; "Feb"; "Mar"; "Apr"; "May"; "Jun";
              "Jul"; "Aug"; "Sep"; "Oct"; "Nov"; "Dec"; "J-D"]%string ]
           []
           ["2024"; "1.22"; "1.28"; "1.28"; "1.28"; "1.17"; "1.22"]%string
           "2024"%string 2024 []).
  - by left.
  - reflexivity.
  - by vm_compute.
  - reflexivity.
  - reflexivity.
  - reflexivity.
Defined.

(** X11. [fetch_global_temperature_data] of warped_clock2.py never returns
    an empty series and never raises anything but a plain [Exception]:
    whatever [requests.get], the status check, a parser or a short row
    raises, and the [ValueError] it raises itself for a table without a
    usable row, leave it as [Exception]; a 4xx or 5xx status does too. *)
Theorem WarpedClock2_fetch_nonempty_or_exception
    (py : Text.builtins) (get : outcome Requests.response) :
  match WarpedClock2.fetch_global_temperature_data py get with
  | Return data => data ≠ []
  | Raise e => e = Exception
  end
  ∧ ∀ response,
      get = Return response →
      400 ≤ Requests.status_code response < 600 →
      WarpedClock2.fetch_global_temperature_data py get = Raise Exception.
Proof.
  unfold WarpedClock2.fetch_global_temperature_data. split.
  - destruct get as [response|]; simpl; [|done].
    destruct (Requests.raise_for_status response); simpl; [|done].
    destruct (for_in _ _ _) as [[|r data]|]; simpl; done.
  - intros response -> Hstatus. simpl. unfold Requests.raise_for_status.
    destruct (Z.leb_spec 400 (Requests.status_code response)); [|lia].
    destruct (Z.ltb_spec (Requests.status_code response) 600); [|lia].
    done.
Qed.

Lemma WarpedClock2_fetch_nonempty_or_exception_witness :
  WarpedClock2.fetch_global_temperature_data sample_builtins
    (Return {| Requests.status_code := 404; Requests.rows := sample_rows |})
  = Raise Exception.
Proof.
  destruct (WarpedClock2_fetch_nonempty_or_exception sample_builtins
              (Return {| Requests.status_code := 404;
                         Requests.rows := sample_rows |})) as [_ H].
  apply (H {| Requests.status_code := 404; Requests.rows := sample_rows |});
    [reflexivity|simpl; lia].
Defined.

(** ** A series without the year of the date *)

(** X12. When the series has no record of the year of the input date,
    [adjust_date_based_on_anomaly] of carbonDate.py, carbonDate3.py and
    carbonDate4.py raises the [ValueError] of the look-up, before any date
    is computed; and an exception raised by the fetch comes out of it
    unchanged. *)
Theorem adjust_date_raises_without_the_year
    (data : list Series.record) (monthly : list CarbonDate4.record)
    (now : Datetime.datetime) (input_date : option Datetime.datetime) :
  (Forall (λ r, Series.year r ≠ Datetime.year (default now input_date)) data →
   CarbonDate.adjust_date_based_on_anomaly (Return data) now input_date
   = Raise ValueError
   ∧ CarbonDate3.adjust_date_based_on_anomaly (Return data) now input_date
     = Raise ValueError)
  ∧ (Forall (λ r, CarbonDate4.year r ≠ Datetime.year (default now input_date))
       monthly →
     CarbonDate4.adjust_date_based_on_anomaly (Return monthly) now input_date
     = Raise ValueError)
  ∧ (∀ e,
       CarbonDate.adjust_date_based_on_anomaly (Raise e) now input_date = Raise e
       ∧ CarbonDate3.adjust_date_based_on_anomaly (Raise e) now input_date = Raise e
       ∧ CarbonDate4.adjust_date_based_on_anomaly (Raise e) now input_date = Raise e).
Proof.
  split_and!.
  - intros Hnone. split.
    + unfold CarbonDate.adjust_date_based_on_anomaly. simpl.
      by rewrite (CarbonDate_loop_none _ _ Hnone).
    + unfold CarbonDate3.adjust_date_based_on_anomaly. simpl.
      by rewrite (CarbonDate3_loop_none _ _ Hnone).
  - intros Hnone. unfold CarbonDate4.adjust_date_based_on_anomaly. simpl.
    by rewrite (CarbonDate4_loop_none _ _ Hnone).
  - done.
Qed.

Lemma adjust_date_raises_without_the_year_witness :
  (CarbonDate.adjust_date_based_on_anomaly (Return sample_series)
     august_2024 (Some new_year_2050) = Raise ValueError
   ∧ CarbonDate3.adjust_date_based_on_anomaly (Return sample_series)
       august_2024 (Some new_year_2050) = Raise ValueError)
  ∧ CarbonDate4.adjust_date_based_on_anomaly (Return sample_monthly_series)
      august_2024 (Some new_year_2050) = Raise ValueError.
Proof.
  destruct (adjust_date_raises_without_the_year sample_series
              sample_monthly_series august_2024 (Some new_year_2050))
    as (H & H4 & _).
  split; [apply H|apply H4]; repeat constructor; by vm_compute.
Defined.

(** X13. When the series has no record of the current year, the clock of
    warped_clock.py passes the [None] of the look-up on to the arithmetic,
    and [TARGET_TEMP - None] raises [TypeError]; the clock of
    warped_clock2.py tests for [None] first and raises [ValueError]. *)
Theorem warped_clocks_without_the_year
    (now : Datetime.datetime) (data : list Series.record) :
  Forall (λ r, Series.year r ≠ Datetime.year now) data →
  WarpedClock.adjust_date_based_on_anomaly now data = Raise TypeError
  ∧ WarpedClock2.adjust_date_based_on_anomaly now data = Raise ValueError.
Proof.
  intros Hnone. split.
  - unfold WarpedClock.adjust_date_based_on_anomaly.
    by rewrite (WarpedClock_none _ _ Hnone).
  - unfold WarpedClock2.adjust_date_based_on_anomaly.
    by rewrite (WarpedClock2_none _ _ Hnone).
Qed.

Lemma warped_clocks_without_the_year_witness :
  WarpedClock.adjust_date_based_on_anomaly new_year_2050 sample_series
  = Raise TypeError
  ∧ WarpedClock2.adjust_date_based_on_anomaly new_year_2050 sample_series
    = Raise ValueError.
Proof.
  apply (warped_clocks_without_the_year new_year_2050 sample_series).
  repeat constructor; by vm_compute.
Defined.

(** X14. The two functions [create_gui_window] of warped_clock2.py calls
    inside [try ... except ValueError].  [adjust_date_based_on_anomaly]
    raises neither [ZeroDivisionError], the division being guarded, nor
    [TypeError], the absent anomaly being tested first.
    [calculate_time_warp_data] raises nothing but [ValueError], and that
    only when no year of the window has a record. *)
Theorem WarpedClock2_guarded_calls_exceptions
    (now : Datetime.datetime) (data : list Series.record) :
  WarpedClock2.adjust_date_based_on_anomaly now data ≠ Raise ZeroDivisionError
  ∧ WarpedClock2.adjust_date_based_on_anomaly now data ≠ Raise TypeError
  ∧ ∀ e : exn,
      WarpedClock2.calculate_time_warp_data now data = Raise e →
      e = ValueError
      ∧ Forall (λ y, ¬ recorded data y) (window (Datetime.year now)).
Proof.
  assert (∀ e, e ≠ ValueError →
            WarpedClock2.adjust_date_based_on_anomaly now data ≠ Raise e)
    as Hadjust.
  { intros e He. unfold WarpedClock2.adjust_date_based_on_anomaly.
    destruct (WarpedClock2.get_anomaly_for_year _ _) as [a|].
    - destruct (WarpedClock2_expected_anomaly (Datetime.year now) a)
        as (x & -> & _). done.
    - intros [= <-]. done. }
  split_and!; [by apply Hadjust|by apply Hadjust|].
  intros e. pose proof (WarpedClock2_time_warp_data now data) as H.
  destruct (filter _ _) as [|y found] eqn:Ef.
  - rewrite H. intros [= <-]. split; [done|]. by apply filter_recorded_nil.
  - destruct H as (rates & -> & _). done.
Qed.

Lemma WarpedClock2_guarded_calls_exceptions_witness :
  WarpedClock2.adjust_date_based_on_anomaly new_year_2050 sample_series
  ≠ Raise ZeroDivisionError
  ∧ WarpedClock2.adjust_date_based_on_anomaly new_year_2050 sample_series
    ≠ Raise TypeError
  ∧ WarpedClock2.calculate_time_warp_data new_year_2050 sample_series
    = Raise ValueError
  ∧ Forall (λ y, ¬ recorded sample_series y)
      (window (Datetime.year new_year_2050)).
Proof.
  destruct (WarpedClock2_guarded_calls_exceptions new_year_2050 sample_series)
    as (H1 & H2 & H3).
  split_and!; [exact H1|exact H2|reflexivity|].
  by apply (H3 ValueError).
Defined.

(** ** The rolling series of warped_clock.py, in full *)

Lemma truthy_nonzero (a : Q) : ¬ (a == 0)%Q → truthy (Some a) = true.
Proof.
  intros Ha. simpl. destruct (Qeq_bool a 0) eqn:E; [|done].
  by apply Qeq_bool_iff in E.
Qed.

(** X15. What [calculate_time_warp_data] of warped_clock.py returns when the
    current year has a record with a non-zero anomaly [a].  If the current
    year is the target year 2050, the first iteration divides by zero and
    the call raises [ZeroDivisionError].  Otherwise the call returns twelve
    copies of one entry: the label of the current year, and the rate
    [(a - (a + (1.5 - a) / (2050 - year))) * 365]. *)
Theorem WarpedClock_time_warp_data_twelve_copies
    (now : Datetime.datetime) (data : list Series.record) (a : Q) :
  WarpedClock.get_anomaly_for_year (Datetime.year now) data = Some a →
  ¬ (a == 0)%Q →
  (Datetime.year now = WarpedClock.TARGET_YEAR →
   WarpedClock.calculate_time_warp_data now data = Raise ZeroDivisionError)
  ∧ (Datetime.year now ≠ WarpedClock.TARGET_YEAR →
     WarpedClock.calculate_time_warp_data now data
     = Return
         (replicate 12 (fstring (Datetime.year now)),
          replicate 12
            ((a - (a + (WarpedClock.TARGET_TEMP - a)
                       / inject_Z (WarpedClock.TARGET_YEAR - Datetime.year now)))
             * 365)%Q)).
Proof.
  intros Hget Ha. set (cy := Datetime.year now) in *.
  assert (∀ i, 0 ≤ i < 12 → cy - i `div` 12 = cy) as Hyear
    by (intros i Hi; rewrite Z.div_small by lia; lia).
  unfold WarpedClock.calculate_time_warp_data. fold cy. split.
  - intros Hcy.
    assert (WarpedClock.time_warp_iteration cy data 0 ([], [])
            = Raise ZeroDivisionError) as Hfirst.
    { unfold WarpedClock.time_warp_iteration.
      rewrite Hyear, Hget, truthy_nonzero by (done || lia).
      unfold WarpedClock.calculate_expected_anomaly. simpl.
      rewrite truediv_zero; [done|]. by rewrite Hcy. }
    assert (range0 12 = [0] ++ range 1 12) as -> by reflexivity.
    rewrite for_in_app.
    change (for_in [0] ?b ?s) with (b 0 s ≫= Return).
    by rewrite Hfirst.
  - intros Hcy.
    set (n := inject_Z (WarpedClock.TARGET_YEAR - cy)).
    set (rate := ((a - (a + (WarpedClock.TARGET_TEMP - a) / n)) * 365)%Q).
    match goal with
    | |- context [ for_in ?xs ?body ?s ] =>
        destruct (for_in_invariant
                    (λ k st, st = (replicate k (fstring cy), replicate k rate))
                    xs body s) as (st & -> & ->); [done| |]
    end.
    + intros k i st Hi ->. apply range_lookup in Hi as [-> Hk].
      unfold WarpedClock.time_warp_iteration.
      rewrite Hyear, Hget, truthy_nonzero by (done || lia).
      unfold WarpedClock.calculate_expected_anomaly. simpl.
      rewrite truediv_inject_Z by lia. simpl.
      eexists. split; [done|]. f_equal; symmetry; apply replicate_S_end.
    + reflexivity.
Qed.

Lemma WarpedClock_time_warp_data_twelve_copies_witness :
  WarpedClock.calculate_time_warp_data new_year_2050 series_2050
  = Raise ZeroDivisionError
  ∧ WarpedClock.calculate_time_warp_data august_2024 sample_series
    = Return
        (replicate 12 (fstring (Datetime.year august_2024)),
         replicate 12
           ((1.28 - (1.28 + (WarpedClock.TARGET_TEMP - 1.28)
                            / inject_Z (WarpedClock.TARGET_YEAR
                                        - Datetime.year august_2024)))
            * 365)%Q).
Proof.
  split.
  - apply (WarpedClock_time_warp_data_twelve_copies new_year_2050 series_2050 1.2);
      [reflexivity|by vm_compute|reflexivity].
  - apply (WarpedClock_time_warp_data_twelve_copies august_2024 sample_series 1.28);
      [reflexivity|by vm_compute|by vm_compute].
Defined.

(** ** The direction of the linear warp *)

Lemma CarbonDate_adjust_value (data : list Series.record)
    (now : Datetime.datetime) (input_date : option Datetime.datetime) (a : Q) :
  Datetime.year (default now input_date) ≠ CarbonDate.TARGET_YEAR →
  CarbonDate.get_current_anomaly (Return data)
    (Datetime.year (default now input_date)) = Return a →
  CarbonDate.adjust_date_based_on_anomaly (Return data) now input_date
  = Return
      ((default now input_date
        + (a - (a + (CarbonDate.TARGET_TEMP - a)
                    / inject_Z (CarbonDate.TARGET_YEAR
                                - Datetime.year (default now input_date))))
          * 365)%Q,
       (a - (a + (CarbonDate.TARGET_TEMP - a)
                 / inject_Z (CarbonDate.TARGET_YEAR
                             - Datetime.year (default now input_date))))%Q).
Proof.
  intros Hyear Hget. unfold CarbonDate.adjust_date_based_on_anomaly.
  rewrite Hget. simpl. unfold CarbonDate.calculate_expected_anomaly.
  by rewrite truediv_inject_Z by lia.
Qed.

(** X16. Which way carbonDate.py moves the date.  Let the year of the input
    date differ from the target year 2050 and let
    [adjust_date_based_on_anomaly] return.  For a date before 2050, an
    adjusted date earlier than the input date means the anomaly of the year
    is below the target 1.5, and a later one means it is above.  For a date
    after 2050 the divisor [TARGET_YEAR - current_year] is negative and the
    direction is reversed: an earlier date means an anomaly above the
    target, a later one an anomaly below it.  Either side of 2050, an
    anomaly equal to the target leaves the date where it is. *)
Theorem CarbonDate_warp_direction
    (data : list Series.record) (now : Datetime.datetime)
    (input_date : option Datetime.datetime) (a : Q)
    (adjusted_date : Datetime.datetime) (anomaly_difference : Q) :
  Datetime.year (default now input_date) ≠ CarbonDate.TARGET_YEAR →
  CarbonDate.get_current_anomaly (Return data)
    (Datetime.year (default now input_date)) = Return a →
  CarbonDate.adjust_date_based_on_anomaly (Return data) now input_date
  = Return (adjusted_date, anomaly_difference) →
  (Datetime.year (default now input_date) < CarbonDate.TARGET_YEAR →
     ((adjusted_date < default now input_date)%Q → (a < CarbonDate.TARGET_TEMP)%Q)
     ∧ ((default now input_date < adjusted_date)%Q
        → (CarbonDate.TARGET_TEMP < a)%Q))
  ∧ (CarbonDate.TARGET_YEAR < Datetime.year (default now input_date) →
     ((adjusted_date < default now input_date)%Q → (CarbonDate.TARGET_TEMP < a)%Q)
     ∧ ((default now input_date < adjusted_date)%Q
        → (a < CarbonDate.TARGET_TEMP)%Q))
  ∧ ((a == CarbonDate.TARGET_TEMP)%Q →
     (adjusted_date == default now input_date)%Q).
Proof.
  intros Hyear Hget.
  rewrite (CarbonDate_adjust_value data now input_date a Hyear Hget).
  intros [= <- <-].
  set (d := default now input_date) in *.
  set (n := inject_Z (CarbonDate.TARGET_YEAR - Datetime.year d)).
  set (t := CarbonDate.TARGET_TEMP).
  assert (((t - a) / n * n == t - a)%Q) as Hs.
  { field. apply inject_Z_nonzero. lia. }
  set (s := ((t - a) / n)%Q) in *.
  split_and!.
  - intros Hcmp.
    assert (0 < n)%Q as Hn
      by (unfold n; change 0%Q with (inject_Z 0); rewrite <- Zlt_Qlt; lia).
    split; intros H; nra.
  - intros Hcmp.
    assert (n < 0)%Q as Hn
      by (unfold n; change 0%Q with (inject_Z 0); rewrite <- Zlt_Qlt; lia).
    split; intros H; nra.
  - intros Hat.
    assert (¬ (n == 0)%Q) as Hn by (apply inject_Z_nonzero; lia).
    assert (s == 0)%Q as Hzero.
    { unfold s. rewrite Hat. field. exact Hn. }
    rewrite Hzero. ring.
Qed.

Lemma CarbonDate_warp_direction_witness :
  ∃ (adjusted_date : Datetime.datetime) (anomaly_difference : Q),
    CarbonDate.adjust_date_based_on_anomaly (Return sample_series)
      august_2024 (Some new_year_2024)
    = Return (adjusted_date, anomaly_difference)
    ∧ (adjusted_date < new_year_2024)%Q
    ∧ (1.28 < CarbonDate.TARGET_TEMP)%Q.
Proof.
  eexists _, _. split; [reflexivity|].
  edestruct (CarbonDate_warp_direction sample_series august_2024
               (Some new_year_2024) 1.28)
    as (Hbefore & _ & _); [by vm_compute|reflexivity|reflexivity|].
  assert (∀ P Q : Prop, P → (P → Q) → P ∧ Q) as Hboth by tauto.
  apply Hboth; [by vm_compute|].
  apply Hbefore. by vm_compute.
Defined.

(** ** The chart and the clock of warped_clock2.py *)

(** X17. In warped_clock2.py the chart ends where the clock stands.  When
    the current year has a record, [calculate_time_warp_data] returns, the
    last label of the series is the current year, and whenever
    [adjust_date_based_on_anomaly] returns, the last warp rate is 365 times
    the anomaly difference it returns with the warped date. *)
Theorem WarpedClock2_chart_ends_with_clock_shift
    (now : Datetime.datetime) (data : list Series.record) :
  recorded data (Datetime.year now) →
  ∃ (months : list string) (rates : list Q) (rate : Q),
    WarpedClock2.calculate_time_warp_data now data = Return (months, rates)
    ∧ last months = Some (fstring (Datetime.year now))
    ∧ last rates = Some rate
    ∧ ∀ (adjusted_date : Datetime.datetime) (anomaly_difference : Q),
        WarpedClock2.adjust_date_based_on_anomaly now data
        = Return (adjusted_date, anomaly_difference) →
        rate = (anomaly_difference * 365)%Q.
Proof.
  intros Hrec. set (cy := Datetime.year now) in *.
  pose proof (WarpedClock2_time_warp_data now data) as H. fold cy in H.
  assert (∃ rest, filter (recorded data) (window cy) = cy :: rest)
    as [rest Hfound].
  { rewrite window_years. rewrite filter_cons_True by done. by eexists. }
  rewrite Hfound in H. destruct H as (rates & E & HF).
  rewrite reverse_cons in E, HF.
  apply Forall2_app_inv_l in HF as (rates1 & rates2 & _ & Hlast & ->).
  apply Forall2_cons_inv_l in Hlast as (r & tl & (a & e & Ha & He & ->) & Hnil & ->).
  apply Forall2_nil_inv_l in Hnil as ->.
  exists (fstring <$> reverse rest ++ [cy]), (rates1 ++ [((a - e) * 365)%Q]),
    ((a - e) * 365)%Q.
  split_and!; [done| |apply last_snoc|].
  - rewrite fmap_app. apply last_snoc.
  - intros adjusted_date anomaly_difference.
    unfold WarpedClock2.adjust_date_based_on_anomaly. fold cy.
    rewrite Ha, He. simpl. by intros [= _ <-].
Qed.

Lemma WarpedClock2_chart_ends_with_clock_shift_witness :
  ∃ (months : list string) (rates : list Q) (rate : Q),
    WarpedClock2.calculate_time_warp_data august_2024 sample_series
    = Return (months, rates)
    ∧ last months = Some (fstring (Datetime.year august_2024))
    ∧ last rates = Some rate
    ∧ ∀ (adjusted_date : Datetime.datetime) (anomaly_difference : Q),
        WarpedClock2.adjust_date_based_on_anomaly august_2024 sample_series
        = Return (adjusted_date, anomaly_difference) →
        rate = (anomaly_difference * 365)%Q.
Proof.
  apply (WarpedClock2_chart_ends_with_clock_shift august_2024 sample_series).
  apply elem_of_cons. right. apply elem_of_cons. by left.
Defined.

(** ** The dates of the proportional model *)

Lemma CarbonDate3_adjust_value (data : list Series.record)
    (now : Datetime.datetime) (input_date : option Datetime.datetime) (a : Q) :
  CarbonDate3.get_current_anomaly (Return data)
    (Datetime.year (default now input_date)) = Return a →
  CarbonDate3.adjust_date_based_on_anomaly (Return data) now input_date
  = Return
      ((default now input_date
        + (proportional_year CarbonDate3.PARIS_AGREEMENT CarbonDate3.TARGET_YEAR
             CarbonDate3.TARGET_TEMP a
           - inject_Z (Datetime.year (default now input_date))) * 365.25)%Q,
       a).
Proof.
  intros Hget. unfold CarbonDate3.adjust_date_based_on_anomaly.
  rewrite Hget. simpl. by rewrite CarbonDate3_adjusted_year.
Qed.


(** X18. The date carbonDate3.py returns.  Let the series have the anomaly
    [a] for the year of the input date.  Whenever
    [adjust_date_based_on_anomaly] returns, it returns [a] as its second
    result and a date at most [(2050 - year) * 365.25] days after the input
    date: exactly that many when [a] is at least the target 1.5, and at
    least [(2016 - year) * 365.25] days after it when [a] is not negative. *)
Theorem CarbonDate3_adjust_date_bounds
    (data : list Series.record) (now : Datetime.datetime)
    (input_date : option Datetime.datetime) (a : Q)
    (adjusted_date : Datetime.datetime) (current_anomaly : Q) :
  CarbonDate3.get_current_anomaly (Return data)
    (Datetime.year (default now input_date)) = Return a →
  CarbonDate3.adjust_date_based_on_anomaly (Return data) now input_date
  = Return (adjusted_date, current_anomaly) →
  current_anomaly = a
  ∧ (adjusted_date
     <= default now input_date
        + (2050 - inject_Z (Datetime.year (default now input_date))) * 365.25)%Q
  ∧ ((1.5 <= a)%Q →
     (adjusted_date
      == default now input_date
         + (2050 - inject_Z (Datetime.year (default now input_date))) * 365.25)%Q)
  ∧ ((0 <= a)%Q →
     (default now input_date
      + (2016 - inject_Z (Datetime.year (default now input_date))) * 365.25
      <= adjusted_date)%Q).
Proof.
  intros Hget. destruct CarbonDate3_config as [Hy Ht].
  rewrite (CarbonDate3_adjust_value data now input_date a Hget).
  intros [= <- <-]. split; [done|].
  set (w := proportional_year _ _ _ a). split_and!.
  - pose proof (warped_le_target_year CarbonDate3.PARIS_AGREEMENT
                  CarbonDate3.TARGET_YEAR CarbonDate3.TARGET_TEMP
                  ltac:(lia) Ht a) as Hle.
    fold w in Hle. change (inject_Z CarbonDate3.TARGET_YEAR) with 2050%Q in Hle.
    lra.
  - intros Ha.
    pose proof (warped_clamp CarbonDate3.PARIS_AGREEMENT
                  CarbonDate3.TARGET_YEAR CarbonDate3.TARGET_TEMP a Ha) as Hw.
    fold w in Hw. rewrite Hw.
    change (inject_Z CarbonDate3.TARGET_YEAR) with 2050%Q. reflexivity.
  - intros Ha.
    pose proof (warped_ge_baseline CarbonDate3.PARIS_AGREEMENT
                  CarbonDate3.TARGET_YEAR CarbonDate3.TARGET_TEMP
                  ltac:(lia) Ht a Ha) as Hge.
    fold w in Hge.
    change (inject_Z CarbonDate3.PARIS_AGREEMENT) with 2016%Q in Hge. lra.
Qed.

Lemma CarbonDate3_adjust_date_bounds_witness :
  ∃ adjusted_date : Datetime.datetime,
    CarbonDate3.adjust_date_based_on_anomaly (Return sample_series)
      august_2024 (Some new_year_2024)
    = Return (adjusted_date, 1.28%Q)
    ∧ (adjusted_date <= new_year_2024 + (2050 - 2024) * 365.25)%Q
    ∧ (new_year_2024 + (2016 - 2024) * 365.25 <= adjusted_date)%Q.
Proof.
  eexists. split; [reflexivity|].
  edestruct (CarbonDate3_adjust_date_bounds sample_series august_2024
               (Some new_year_2024) 1.28)
    as (_ & Hle & _ & Hge); [reflexivity..|].
  split; [exact Hle|]. apply Hge. by vm_compute.
Defined.



(** ** Sample runs of the rolling series of warped_clock2.py and of the
    unguarded division *)

Lemma WarpedClock2_rolling_series_chronological_witness :
  ∃ years,
    years = reverse (filter (recorded sample_series)
                       (window (Datetime.year august_2024)))
    ∧ window (Datetime.year august_2024)
      = (λ offset, Datetime.year august_2024 - offset)
          <$> [0; 1; 2; 3; 4; 5; 6; 7; 8; 9; 10; 11]
    ∧ ["2023"; "2024"]%string = fstring <$> years
    ∧ Forall2 (charted sample_series) years
        [((1.17 - (1.17 + (1.5 - 1.17) / inject_Z (2050 - 2023))) * 365)%Q;
         ((1.28 - (1.28 + (1.5 - 1.28) / inject_Z (2050 - 2024))) * 365)%Q]
    ∧ (length ["2023"; "2024"]%string ≤ 12)%nat
    ∧ length
        [((1.17 - (1.17 + (1.5 - 1.17) / inject_Z (2050 - 2023))) * 365)%Q;
         ((1.28 - (1.28 + (1.5 - 1.28) / inject_Z (2050 - 2024))) * 365)%Q]
      = length ["2023"; "2024"]%string
    ∧ StronglySorted Z.lt years.
Proof.
  apply (WarpedClock2_rolling_series_chronological august_2024 sample_series).
  reflexivity.
Defined.

Lemma WarpedClock2_skips_exactly_missing_years_witness :
  WarpedClock2.calculate_time_warp_data august_2024 [] = Raise ValueError
  ∧ ∃ years rates,
      WarpedClock2.calculate_time_warp_data august_2024 series_with_zero
      = Return (fstring <$> years, rates)
      ∧ Forall2 (charted series_with_zero) years rates
      ∧ NoDup years
      ∧ ∀ y, y ∈ years
             ↔ y ∈ window (Datetime.year august_2024)
               ∧ recorded series_with_zero y.
Proof.
  split.
  - apply (WarpedClock2_skips_exactly_missing_years august_2024 []).
    apply Forall_forall. intros y _ Hy. by apply elem_of_nil in Hy.
  - apply (WarpedClock2_skips_exactly_missing_years august_2024 series_with_zero).
    intros H. rewrite Forall_forall in H. apply (H 2024).
    + apply elem_of_cons. by left.
    + apply elem_of_cons. by left.
Defined.

Lemma CarbonDate_raises_at_target_year_witness :
  CarbonDate.adjust_date_based_on_anomaly (Return series_2050)
    august_2024 (Some new_year_2050)
  = Raise ZeroDivisionError.
Proof.
  apply (CarbonDate_raises_at_target_year series_2050 august_2024
           (Some new_year_2050) 1.2); reflexivity.
Defined.
